(** * py_utils: the logging facade, the function-trace decorator and the
    scoped timer

    A shallow embedding of [py_utils/logger.py] and [py_utils/timer.py].

    The two modules are thin layers over Python's [logging] package, over
    [time.time], [print] and over a [tqdm] progress bar.  The embedding keeps
    the objects the code shares in one store ([World]): the dictionary of
    [logging.Logger] objects kept by [logging.getLogger], the [Logger] and
    [Timer] instances, the progress bars, the file system and the two
    console streams.  Methods are state transformers that may raise
    ([M]).

    Modelling scope.  Text is ASCII.  The root logger is the one of a fresh
    interpreter (level WARNING, no handlers, [logging.disable] unused), so a
    record never reaches a handler outside the logger it is sent to.  A
    handler object is only ever reachable through the handler list that
    holds it, so handlers are kept in the list by value.  Instances, timers
    and bars are referred to by their index in the store; an index that
    refers to nothing, which Python cannot produce, raises
    [ReferenceError].  What a progress bar draws on the terminal is left
    out.  The clock and the rendering of a time stamp belong to the
    environment: they are fields of the store that no operation changes. *)

From Stdlib Require Import ZArith String Ascii List DecimalString Lia.
From Stdlib Require Import Floats.PrimFloat Floats.SpecFloat Floats.FloatOps.
From stdpp Require Import gmap strings list.

Local Open Scope Z_scope.
Local Open Scope string_scope.
Local Open Scope list_scope.

(** ** Text *)

(** The line feed, ["\n"]. *)
Definition LF : string := String (ascii_of_nat 10) EmptyString.

(** [c.upper()] on an ASCII character. *)
Definition upper_ascii (c : ascii) : ascii :=
  let n := nat_of_ascii c in
  if ((97 <=? n)%nat && (n <=? 122)%nat)%bool then ascii_of_nat (n - 32) else c.

(** [s.upper()]. *)
Fixpoint upper (s : string) : string :=
  match s with
  | EmptyString => EmptyString
  | String c s' => String (upper_ascii c) (upper s')
  end.

(** [s.split("\n")]: the lines of a text, an empty text being one empty
    line. *)
Fixpoint split_lines_aux (cur : string) (s : string) : list string :=
  match s with
  | EmptyString => [cur]
  | String c s' =>
      if Ascii.eqb c (ascii_of_nat 10) then cur :: split_lines_aux "" s'
      else split_lines_aux (cur +:+ String c EmptyString) s'
  end.

Definition split_lines (s : string) : list string := split_lines_aux "" s.

Fixpoint has_LF (s : string) : bool :=
  match s with
  | EmptyString => false
  | String c s' => (Ascii.eqb c (ascii_of_nat 10) || has_LF s')%bool
  end.

(** ["=" * n]. *)
Fixpoint repeat_eq (n : nat) : string :=
  match n with
  | O => ""
  | S n' => String "="%char (repeat_eq n')
  end.

(** ** Exceptions and results *)

Record exn := Exn { exc_type : string; exc_arg : string }.

Inductive result (A : Type) : Type :=
  | Ret (a : A)
  | Raise (e : exn).
Arguments Ret {A} a.
Arguments Raise {A} e.

(** ** The [logging] package *)

(** The level constants of [logging]. *)
Definition CRITICAL : Z := 50.
Definition FATAL : Z := CRITICAL.
Definition ERROR : Z := 40.
Definition WARNING : Z := 30.
Definition WARN : Z := WARNING.
Definition INFO : Z := 20.
Definition DEBUG : Z := 10.
Definition NOTSET : Z := 0.

(** Values that [getattr(logging, NAME)] can yield for an upper-case
    [NAME]. *)
Inductive pyval : Type :=
  | PyInt (z : Z)
  | PyStr (s : string)
  | PyDict.

(** The attributes of the [logging] module whose names contain no
    lower-case letter, the only ones [log_level.upper()] can name. *)
Definition logging_namespace : list (string * pyval) :=
  [ ("CRITICAL", PyInt CRITICAL); ("FATAL", PyInt FATAL);
    ("ERROR", PyInt ERROR); ("WARNING", PyInt WARNING);
    ("WARN", PyInt WARN); ("INFO", PyInt INFO); ("DEBUG", PyInt DEBUG);
    ("NOTSET", PyInt NOTSET);
    ("BASIC_FORMAT", PyStr "%(levelname)s:%(name)s:%(message)s");
    ("_STYLES", PyDict) ].

Fixpoint assoc {V : Type} (k : string) (l : list (string * V)) : option V :=
  match l with
  | [] => None
  | (k', v) :: l' => if String.eqb k k' then Some v else assoc k l'
  end.

(** [getattr(logging, name, default)]. *)
Definition getattr_logging (name : string) (default : pyval) : pyval :=
  match assoc name logging_namespace with
  | Some v => v
  | None => default
  end.

(** [logging._nameToLevel]. *)
Definition _nameToLevel : list (string * Z) :=
  [ ("CRITICAL", CRITICAL); ("FATAL", FATAL); ("ERROR", ERROR);
    ("WARN", WARNING); ("WARNING", WARNING); ("INFO", INFO);
    ("DEBUG", DEBUG); ("NOTSET", NOTSET) ].

(** [logging._checkLevel]: an integer is a level, a string must be a level
    name, anything else is a type error. *)
Definition _checkLevel (level : pyval) : result Z :=
  match level with
  | PyInt z => Ret z
  | PyStr s =>
      match assoc s _nameToLevel with
      | Some z => Ret z
      | None => Raise (Exn "ValueError" ("Unknown level: '" +:+ s +:+ "'"))
      end
  | PyDict => Raise (Exn "TypeError" "Level not an integer or a valid string")
  end.

(** [logging.getLevelName] on a level number. *)
Definition string_of_Z (z : Z) : string :=
  if (z <? 0)%Z then "-" +:+ NilZero.string_of_uint (N.to_uint (Z.to_N (- z)))
  else NilZero.string_of_uint (N.to_uint (Z.to_N z)).

Definition getLevelName (level : Z) : string :=
  if (level =? CRITICAL)%Z then "CRITICAL"
  else if (level =? ERROR)%Z then "ERROR"
  else if (level =? WARNING)%Z then "WARNING"
  else if (level =? INFO)%Z then "INFO"
  else if (level =? DEBUG)%Z then "DEBUG"
  else if (level =? NOTSET)%Z then "NOTSET"
  else "Level " +:+ string_of_Z level.

(** The two formatters in play: the default one of [logging]
    (["%(message)s"]) and the one both handlers of [Logger] are given. *)
Inductive Formatter : Type :=
  | DefaultFormat
  | LoggerFormat.

(** [Formatter.format]. [LoggerFormat] is
    ["%(asctime)s - %(levelname)s - %(message)s"]. *)
Definition format (f : Formatter) (asct levelname msg : string) : string :=
  match f with
  | DefaultFormat => msg
  | LoggerFormat => asct +:+ " - " +:+ levelname +:+ " - " +:+ msg
  end.

Inductive handler_kind : Type :=
  | StreamHandler
  | FileHandler (baseFilename : string).

Record Handler := mkHandler {
  hkind : handler_kind;
  hlevel : Z;
  hformatter : Formatter }.

(** [isinstance(handler, logging.FileHandler)]. *)
Definition isFileHandler (h : Handler) : bool :=
  match hkind h with
  | FileHandler _ => true
  | StreamHandler => false
  end.

Definition isConsoleHandler (h : Handler) : bool := negb (isFileHandler h).

(** A [logging.Logger] object. *)
Record PyLogger := mkPyLogger {
  level : Z;
  handlers : list Handler }.

#[global] Instance handler_kind_eq_dec : EqDecision handler_kind.
Proof. solve_decision. Defined.
#[global] Instance Formatter_eq_dec : EqDecision Formatter.
Proof. solve_decision. Defined.
#[global] Instance Handler_eq_dec : EqDecision Handler.
Proof. solve_decision. Defined.

(** The level of the root logger, which a logger at NOTSET inherits. *)
Definition ROOT_LEVEL : Z := WARNING.

(** [Logger.getEffectiveLevel]. *)
Definition getEffectiveLevel (lg : PyLogger) : Z :=
  if (level lg =? 0)%Z then ROOT_LEVEL else level lg.

(** [Logger.isEnabledFor]. *)
Definition isEnabledFor (lg : PyLogger) (lvl : Z) : bool :=
  (getEffectiveLevel lg <=? lvl)%Z.

(** ** Objects of the two modules *)

(** A [py_utils.logger.Logger] instance: the name of the [logging.Logger]
    its attribute [logger] refers to, and its attribute [log_file]. *)
Record LoggerObj := mkLoggerObj {
  self_logger : string;
  self_log_file : option string }.

(** What a [Timer] may hold as its logger: a [logging.Logger] (by name) or
    a [Logger] instance (by index); both answer [info]. *)
Inductive logger_ref : Type :=
  | StdLogger (name : string)
  | Facade (inst : nat).

(** A [tqdm] progress bar: its total, its label, the steps counted and the
    number of times [close] ran on it. *)
Record Bar := mkBar {
  bar_total : Z;
  bar_desc : string;
  bar_n : Z;
  bar_closes : nat }.

(** A [Timer] instance; [start], [end] and [elapsed] do not exist before
    they are first assigned. *)
Record TimerObj := mkTimerObj {
  t_name : string;
  t_logger : option logger_ref;
  t_total : option Z;
  t_progress_bar : option nat;
  t_start : option float;
  t_end : option float;
  t_elapsed : option float }.

(** ** The store *)

Record World := mkWorld {
  loggerDict : gmap string PyLogger;   (* logging.Logger.manager.loggerDict *)
  instances : list LoggerObj;          (* the Logger instances, by creation *)
  timers : list TimerObj;              (* the Timer instances *)
  bars : list Bar;                     (* the tqdm bars *)
  fs : gmap string (list string);      (* files: the chunks written *)
  denied : gset string;                (* paths open() refuses *)
  stderr : list string;                (* chunks written to sys.stderr *)
  stdout : list string;                (* chunks written to sys.stdout *)
  ticks : nat;                         (* clock readings taken so far *)
  now : nat -> float;                  (* the reading time.time() gives *)
  asctime : float -> string }.         (* Formatter.formatTime *)

Definition M (A : Type) : Type := World -> result A * World.

Definition ret {A} (a : A) : M A := fun w => (Ret a, w).
Definition raise {A} (e : exn) : M A := fun w => (Raise e, w).
Definition bind {A B} (m : M A) (k : A -> M B) : M B :=
  fun w =>
    match m w with
    | (Ret a, w') => k a w'
    | (Raise e, w') => (Raise e, w')
    end.

Notation "x <- m ;; k" := (bind m (fun x => k))
  (at level 100, m at next level, right associativity).
Notation "m ;;; k" := (bind m (fun _ => k))
  (at level 100, right associativity).

Definition set_loggerDict (f : gmap string PyLogger -> gmap string PyLogger)
    (w : World) : World :=
  mkWorld (f (loggerDict w)) (instances w) (timers w) (bars w) (fs w)
    (denied w) (stderr w) (stdout w) (ticks w) (now w) (asctime w).
Definition set_instances (f : list LoggerObj -> list LoggerObj)
    (w : World) : World :=
  mkWorld (loggerDict w) (f (instances w)) (timers w) (bars w) (fs w)
    (denied w) (stderr w) (stdout w) (ticks w) (now w) (asctime w).
Definition set_timers (f : list TimerObj -> list TimerObj)
    (w : World) : World :=
  mkWorld (loggerDict w) (instances w) (f (timers w)) (bars w) (fs w)
    (denied w) (stderr w) (stdout w) (ticks w) (now w) (asctime w).
Definition set_bars (f : list Bar -> list Bar) (w : World) : World :=
  mkWorld (loggerDict w) (instances w) (timers w) (f (bars w)) (fs w)
    (denied w) (stderr w) (stdout w) (ticks w) (now w) (asctime w).
Definition set_fs (f : gmap string (list string) -> gmap string (list string))
    (w : World) : World :=
  mkWorld (loggerDict w) (instances w) (timers w) (bars w) (f (fs w))
    (denied w) (stderr w) (stdout w) (ticks w) (now w) (asctime w).
Definition set_stderr (f : list string -> list string) (w : World) : World :=
  mkWorld (loggerDict w) (instances w) (timers w) (bars w) (fs w)
    (denied w) (f (stderr w)) (stdout w) (ticks w) (now w) (asctime w).
Definition set_stdout (f : list string -> list string) (w : World) : World :=
  mkWorld (loggerDict w) (instances w) (timers w) (bars w) (fs w)
    (denied w) (stderr w) (f (stdout w)) (ticks w) (now w) (asctime w).
Definition set_ticks (f : nat -> nat) (w : World) : World :=
  mkWorld (loggerDict w) (instances w) (timers w) (bars w) (fs w)
    (denied w) (stderr w) (stdout w) (f (ticks w)) (now w) (asctime w).

Definition lift {A} (r : result A) : M A := fun w => (r, w).

(** ** Operating system and library services *)

(** [time.time()]: the next reading of the clock. *)
Definition time_time : M float :=
  fun w => (Ret (now w (ticks w)), set_ticks S w).

(** [print(s)]: the text and a line feed go to standard output. *)
Definition print (s : string) : M unit :=
  fun w => (Ret tt, set_stdout (fun out => out ++ [s +:+ LF]) w).

(** [with open(p, "w"): pass]: the file is created or emptied; a refused
    path raises. *)
Definition open_w (p : string) : M unit :=
  fun w =>
    if decide (p ∈ denied w) then (Raise (Exn "PermissionError" p), w)
    else (Ret tt, set_fs (fun m => <[p := []]> m) w).

(** Opening [p] in append mode, as the constructor of a file handler does:
    the file is created when missing and otherwise left as it is. *)
Definition open_a (p : string) : M unit :=
  fun w =>
    if decide (p ∈ denied w) then (Raise (Exn "PermissionError" p), w)
    else (Ret tt, set_fs (fun m => <[p := default [] (m !! p)]> m) w).

(** [tqdm(total=total, desc=desc)]: a new bar, by its index. *)
Definition tqdm (total : Z) (desc : string) : M nat :=
  fun w => (Ret (length (bars w)),
            set_bars (fun bs => bs ++ [mkBar total desc 0 0]) w).

(** [bar.update(n)]: a closed bar ignores it. *)
Definition tqdm_update (b : nat) (n : Z) : M unit :=
  fun w =>
    match bars w !! b with
    | None => (Raise (Exn "ReferenceError" "progress bar"), w)
    | Some bar =>
        if Nat.eqb (bar_closes bar) 0 then
          (Ret tt,
           set_bars (fun bs =>
             <[b := mkBar (bar_total bar) (bar_desc bar) (bar_n bar + n)
                      (bar_closes bar)]> bs) w)
        else (Ret tt, w)
    end.

(** [bar.close()]. *)
Definition tqdm_close (b : nat) : M unit :=
  fun w =>
    match bars w !! b with
    | None => (Raise (Exn "ReferenceError" "progress bar"), w)
    | Some bar =>
        (Ret tt,
         set_bars (fun bs =>
           <[b := mkBar (bar_total bar) (bar_desc bar) (bar_n bar)
                    (S (bar_closes bar))]> bs) w)
    end.

(** ** Formatting a float with [4.2f] *)

Definition round_half_even (num den : Z) : Z :=
  let q := (num / den)%Z in
  let r := (num mod den)%Z in
  if (2 * r <? den)%Z then q
  else if (den <? 2 * r)%Z then (q + 1)%Z
  else if Z.even q then q else (q + 1)%Z.

Definition two_digits (n : Z) : string :=
  (if (n <? 10)%Z then "0" else "") +:+ string_of_Z n.

(** The hundredths nearest to [m * 2^e], ties to even. *)
Definition hundredths (m : positive) (e : Z) : Z :=
  if (0 <=? e)%Z then (Zpos m * 100 * 2 ^ e)%Z
  else round_half_even (Zpos m * 100) (2 ^ (- e)).

(** [format(x, ".2f")]: the decimal with two places nearest to the exact
    value of the float. *)
Definition format_2f (x : float) : string :=
  match Prim2SF x with
  | S754_nan => "nan"
  | S754_infinity s => if s then "-inf" else "inf"
  | S754_zero s => (if s then "-" else "") +:+ "0.00"
  | S754_finite s m e =>
      let h := hundredths m e in
      (if s then "-" else "") +:+ string_of_Z (h / 100) +:+ "."
        +:+ two_digits (h mod 100)
  end.

Fixpoint spaces (n : nat) : string :=
  match n with
  | O => ""
  | S n' => String " "%char (spaces n')
  end.

(** [format(x, "4.2f")]: at least four characters, padded on the left. *)
Definition format_4_2f (x : float) : string :=
  let s := format_2f x in
  spaces (4 - String.length s) +:+ s.

(** ** [logging]: loggers and handlers *)

Module logging.

(** [logging.getLogger(name)]: the logger of that name, a new one (level
    NOTSET, no handler) when the name is first asked for. *)
Definition getLogger (name : string) (w : World) : PyLogger :=
  default (mkPyLogger NOTSET []) (loggerDict w !! name).

Definition update (name : string) (f : PyLogger -> PyLogger) : M unit :=
  fun w => (Ret tt, set_loggerDict (fun d => <[name := f (getLogger name w)]> d) w).

(** [Logger.setLevel(level)]. *)
Definition setLevel (name : string) (v : pyval) : M unit :=
  z <- lift (_checkLevel v) ;;
  update name (fun lg => mkPyLogger z (handlers lg)).

(** [Handler.setLevel(level)]. *)
Definition Handler_setLevel (v : pyval) (h : Handler) : result Handler :=
  match _checkLevel v with
  | Ret z => Ret (mkHandler (hkind h) z (hformatter h))
  | Raise e => Raise e
  end.

(** [Logger.addHandler(h)] with a handler just created. *)
Definition addHandler (name : string) (h : Handler) : M unit :=
  update name (fun lg => mkPyLogger (level lg) (handlers lg ++ [h])).

(** [list.remove(h)] guarded by [h in list], as [Logger.removeHandler]
    does: the first occurrence goes. *)
Fixpoint removeHandler (h : Handler) (hs : list Handler) : list Handler :=
  match hs with
  | [] => []
  | x :: r => if decide (x = h) then r else x :: removeHandler h r
  end.

(** [Handler.emit]: the formatted record and a line feed, to standard
    error or appended to the file. *)
Definition emit (h : Handler) (asct levelname msg : string)
    (w : World) : World :=
  let text := format (hformatter h) asct levelname msg +:+ LF in
  match hkind h with
  | StreamHandler => set_stderr (fun err => err ++ [text]) w
  | FileHandler p =>
      set_fs (fun m => <[p := default [] (m !! p) ++ [text]]> m) w
  end.

(** The body of the loop of [Logger.callHandlers]: a handler emits the
    record when the level of the record reaches its own. *)
Definition handle (lvl : Z) (asct msg : string) (w : World) (h : Handler)
    : World :=
  if (hlevel h <=? lvl)%Z then emit h asct (getLevelName lvl) msg w else w.

(** [Logger.callHandlers]: every handler whose level the record reaches
    emits it; a logger without any handler falls back on the handler of
    last resort (bare message, WARNING and above). *)
Definition callHandlers (hs : list Handler) (lvl : Z) (asct msg : string)
    (w : World) : World :=
  match hs with
  | [] =>
      if (WARNING <=? lvl)%Z
      then set_stderr (fun err => err ++ [msg +:+ LF]) w
      else w
  | _ => fold_left (handle lvl asct msg) hs w
  end.

(** [Logger.log(lvl, msg)]: when the logger is enabled for the level, a
    record is created (reading the clock) and handed to the handlers. *)
Definition log (name : string) (lvl : Z) (msg : string) : M unit :=
  fun w =>
    let lg := getLogger name w in
    if isEnabledFor lg lvl then
      let created := now w (ticks w) in
      (Ret tt,
       callHandlers (handlers lg) lvl (asctime w created) msg
         (set_ticks S w))
    else (Ret tt, w).

Definition debug (name msg : string) : M unit := log name DEBUG msg.
Definition info (name msg : string) : M unit := log name INFO msg.
Definition warning (name msg : string) : M unit := log name WARNING msg.
Definition error (name msg : string) : M unit := log name ERROR msg.
Definition critical (name msg : string) : M unit := log name CRITICAL msg.

End logging.

(** ** [py_utils/logger.py] *)

(** [__name__] inside the module. *)
Definition __name__ : string := "py_utils.logger".

Module Logger.

Definition get (self : nat) : M LoggerObj :=
  fun w =>
    match instances w !! self with
    | Some o => (Ret o, w)
    | None => (Raise (Exn "ReferenceError" "Logger"), w)
    end.

Definition put (self : nat) (o : LoggerObj) : M unit :=
  fun w => (Ret tt, set_instances (fun l => <[self := o]> l) w).

(** [for handler in self.logger.handlers: handler.setLevel(v)]. *)
Fixpoint setLevel_all (v : pyval) (hs : list Handler)
    : result (list Handler) :=
  match hs with
  | [] => Ret []
  | h :: r =>
      match logging.Handler_setLevel v h with
      | Raise e => Raise e
      | Ret h' =>
          match setLevel_all v r with
          | Ret r' => Ret (h' :: r')
          | Raise e => Raise e
          end
      end
  end.

(** The loop of [clear_log_file] over the copy [hs] of the handler
    list. *)
Definition remove_file_handlers (hs : list Handler) : list Handler :=
  fold_left
    (fun acc h => if isFileHandler h then logging.removeHandler h acc else acc)
    hs hs.

Definition set_log_file (self : nat) (p : string) : M unit :=
  o <- get self ;;
  put self (mkLoggerObj (self_logger o) (Some p)) ;;;
  open_w p ;;;
  (fun w =>
     let lg := logging.getLogger (self_logger o) w in
     if existsb isFileHandler (handlers lg) then (Ret tt, w)
     else
       (open_a p ;;;
        logging.addHandler (self_logger o)
          (mkHandler (FileHandler p) DEBUG LoggerFormat)) w).

Definition clear_log_file (self : nat) : M unit :=
  o <- get self ;;
  put self (mkLoggerObj (self_logger o) None) ;;;
  logging.update (self_logger o)
    (fun lg => mkPyLogger (level lg) (remove_file_handlers (handlers lg))).

(** [Logger(log_file, level)]: the index of the new instance. *)
Definition __init__ (log_file : option string) (lvl : Z) : M nat :=
  fun w =>
    let self := length (instances w) in
    ((fun w => (Ret tt,
                set_instances (fun l => l ++ [mkLoggerObj __name__ log_file]) w)) ;;;
     logging.setLevel __name__ (PyInt lvl) ;;;
     logging.addHandler __name__ (mkHandler StreamHandler lvl LoggerFormat) ;;;
     match log_file with
     | Some p => set_log_file self p
     | None => ret tt
     end ;;;
     ret self) w.

Definition set_params (self : nat) (log_level : string)
    (log_file : option string) : M unit :=
  o <- get self ;;
  let log_level_value := getattr_logging (upper log_level) (PyInt INFO) in
  logging.setLevel (self_logger o) log_level_value ;;;
  (fun w =>
     match setLevel_all log_level_value
             (handlers (logging.getLogger (self_logger o) w)) with
     | Ret hs =>
         logging.update (self_logger o)
           (fun lg => mkPyLogger (level lg) hs) w
     | Raise e => (Raise e, w)
     end) ;;;
  match log_file with
  | Some p => set_log_file self p
  | None => clear_log_file self
  end.

Definition info (self : nat) (msg : string) : M unit :=
  o <- get self ;; logging.info (self_logger o) msg.
Definition warning (self : nat) (msg : string) : M unit :=
  o <- get self ;; logging.warning (self_logger o) msg.
Definition error (self : nat) (msg : string) : M unit :=
  o <- get self ;; logging.error (self_logger o) msg.
Definition critical (self : nat) (msg : string) : M unit :=
  o <- get self ;; logging.critical (self_logger o) msg.
Definition debug (self : nat) (msg : string) : M unit :=
  o <- get self ;; logging.debug (self_logger o) msg.

(** The text [processing_log] hands to [info]. *)
Definition outmsg (msg : string) : string :=
  LF +:+ "========================================" +:+ LF
     +:+ msg +:+ LF
     +:+ "========================================".

Definition processing_log (self : nat) (msg : string) : M unit :=
  o <- get self ;; logging.info (self_logger o) (outmsg msg).

End Logger.

(** The module-level [logger = Logger()]: the module body runs before any
    other [Logger] can be built, so it is the first instance. *)
Definition logger : nat := 0%nat.

(** Running the body of the module at import. *)
Definition import_logger : M unit :=
  Logger.__init__ None INFO ;;; ret tt.

(** A function object: [__module__], [__name__] and what a call does. *)
Record Fn (A B : Type) := mkFn {
  fn_module : string;
  fn_name : string;
  fn_call : A -> M B }.
Arguments mkFn {A B} _ _ _.
Arguments fn_module {A B} _.
Arguments fn_name {A B} _.
Arguments fn_call {A B} _ _.

(** The inner [wrapper] of [log_function]. *)
Definition wrapper {A B} (func : Fn A B) (logger_instance : option nat)
    (args : A) : M B :=
  let logger_to_use := default logger logger_instance in
  let module_name := fn_module func in
  Logger.debug logger_to_use (module_name +:+ "." +:+ fn_name func +:+ " BEGIN") ;;;
  result <- fn_call func args ;;
  Logger.debug logger_to_use (module_name +:+ "." +:+ fn_name func +:+ " END") ;;;
  ret result.

(** What [log_function] returns: the wrapped function, or, called without
    a function, the decorator that will wrap one. *)
Inductive decorated (A B : Type) : Type :=
  | Wrapped (f : Fn A B)
  | Decorator (d : Fn A B -> Fn A B).
Arguments Wrapped {A B} f.
Arguments Decorator {A B} d.

(** [functools.wraps(func)(wrapper)]: the wrapper under the name and the
    module of [func]. *)
Definition wraps {A B} (func : Fn A B) (logger_instance : option nat)
    : Fn A B :=
  mkFn (fn_module func) (fn_name func) (wrapper func logger_instance).

(** [log_function(func=None, *, logger_instance=None)]; the lambda of the
    first branch calls [log_function] again with the function it is
    given, which takes the second branch. *)
Definition log_function {A B} (func : option (Fn A B))
    (logger_instance : option nat) : decorated A B :=
  match func with
  | None => Decorator (fun f => wraps f logger_instance)
  | Some f => Wrapped (wraps f logger_instance)
  end.

(** ** [py_utils/timer.py] *)

(** [lr.info(msg)] on what a timer holds as its logger. *)
Definition logger_ref_info (lr : logger_ref) (msg : string) : M unit :=
  match lr with
  | StdLogger name => logging.info name msg
  | Facade inst => Logger.info inst msg
  end.

Module Timer.

Definition get (self : nat) : M TimerObj :=
  fun w =>
    match timers w !! self with
    | Some t => (Ret t, w)
    | None => (Raise (Exn "ReferenceError" "Timer"), w)
    end.

Definition put (self : nat) (t : TimerObj) : M unit :=
  fun w => (Ret tt, set_timers (fun l => <[self := t]> l) w).

(** [Timer(name, total, logger)]: the index of the new instance. *)
Definition __init__ (name : string) (total : option Z)
    (lg : option logger_ref) : M nat :=
  fun w =>
    (Ret (length (timers w)),
     set_timers
       (fun l => l ++ [mkTimerObj name lg total None None None None]) w).

Definition set_logger (self : nat) (lg : logger_ref) : M unit :=
  t <- get self ;;
  put self (mkTimerObj (t_name t) (Some lg) (t_total t)
              (t_progress_bar t) (t_start t) (t_end t) (t_elapsed t)).

Definition __enter__ (self : nat) : M nat :=
  t <- get self ;;
  s <- time_time ;;
  put self (mkTimerObj (t_name t) (t_logger t) (t_total t)
              (t_progress_bar t) (Some s) (t_end t) (t_elapsed t)) ;;;
  match t_total t with
  | Some total =>
      b <- tqdm total (t_name t) ;;
      put self (mkTimerObj (t_name t) (t_logger t) (t_total t)
                  (Some b) (Some s) (t_end t) (t_elapsed t))
  | None => ret tt
  end ;;;
  ret self.

(** The text [__exit__] reports. *)
Definition report (name : string) (elapsed : float) : string :=
  name +:+ " took " +:+ format_4_2f elapsed +:+ " seconds." +:+ LF.

(** [__exit__(exc_type, exc_val, exc_tb)]: the three arguments are not
    looked at; the method falls off its end, so it returns [None], which
    is false. *)
Definition __exit__ (self : nat) (exc : option exn) : M bool :=
  t <- get self ;;
  e <- time_time ;;
  put self (mkTimerObj (t_name t) (t_logger t) (t_total t)
              (t_progress_bar t) (t_start t) (Some e) (t_elapsed t)) ;;;
  match t_start t with
  | None => raise (Exn "AttributeError" "start")
  | Some s =>
      let elapsed := PrimFloat.sub e s in
      put self (mkTimerObj (t_name t) (t_logger t) (t_total t)
                  (t_progress_bar t) (t_start t) (Some e) (Some elapsed)) ;;;
      match t_progress_bar t with
      | Some b => tqdm_close b
      | None => ret tt
      end ;;;
      match t_logger t with
      | Some lr => logger_ref_info lr (report (t_name t) elapsed)
      | None => print (report (t_name t) elapsed)
      end ;;;
      ret false
  end.

Definition update (self : nat) (n : Z) : M unit :=
  t <- get self ;;
  match t_progress_bar t with
  | Some b => tqdm_update b n
  | None => ret tt
  end.

End Timer.

(** ** The [with] statement

    [with mgr as x: body]: [__enter__] runs, then the body; [__exit__]
    runs on every way out of the body, and an exception of the body goes
    on unless [__exit__] returns a true value. *)
Definition with_stmt {T} (enter : M T) (exit : option exn -> M bool)
    (body : T -> M unit) : M unit :=
  x <- enter ;;
  fun w =>
    match body x w with
    | (Ret _, w') => (exit None ;;; ret tt) w'
    | (Raise e, w') =>
        (suppress <- exit (Some e) ;;
         if suppress : bool then ret tt else raise e) w'
    end.

(** [with Timer(...) as timer: body], for a timer already built. *)
Definition with_Timer (self : nat) (body : nat -> M unit) : M unit :=
  with_stmt (Timer.__enter__ self) (Timer.__exit__ self) body.

(** ** A fresh interpreter *)

Definition fresh (denied : gset string) (now : nat -> float)
    (asctime : float -> string) : World :=
  mkWorld ∅ [] [] [] ∅ denied [] [] 0 now asctime.

(** ** Vocabulary of the statements *)

(** The text handler [h] writes for a record of level [lvl] and message
    [msg] stamped [asct]. *)
Definition text_of (h : Handler) (asct : string) (lvl : Z) (msg : string)
    : string :=
  format (hformatter h) asct (getLevelName lvl) msg +:+ LF.

(** Whether a record of level [lvl] sent to the logger [lg] is written by
    its handler [h]: the logger must be enabled for the level and the
    level must reach the threshold of the handler. *)
Definition reaches (lg : PyLogger) (h : Handler) (lvl : Z) : bool :=
  (isEnabledFor lg lvl && (hlevel h <=? lvl)%Z)%bool.

(** Whether [h] is a file handler on the path [p]. *)
Definition writes_to (p : string) (h : Handler) : bool :=
  match hkind h with
  | FileHandler q => bool_decide (q = p)
  | StreamHandler => false
  end.

(** The chunks written so far to the file [p] (none when it is missing). *)
Definition file_content (w : World) (p : string) : list string :=
  default [] (fs w !! p).

(** The handlers and the level a [Logger] instance logs through. *)
Definition Logger_sinks (self : nat) (w : World) : option (list Handler) :=
  match instances w !! self with
  | Some o => Some (handlers (logging.getLogger (self_logger o) w))
  | None => None
  end.

Definition Logger_level (self : nat) (w : World) : option Z :=
  match instances w !! self with
  | Some o => Some (level (logging.getLogger (self_logger o) w))
  | None => None
  end.

(** The console handlers on the logger of the module. *)
Definition console_handlers (w : World) : list Handler :=
  List.filter isConsoleHandler (handlers (logging.getLogger __name__ w)).

(** The file handlers on the logger of the module. *)
Definition file_handlers (w : World) : list Handler :=
  List.filter isFileHandler (handlers (logging.getLogger __name__ w)).

(** Every [Logger] instance was built by [Logger.__init__], hence refers to
    the logger named after the module. *)
Definition shared (w : World) : Prop :=
  Forall (fun o => self_logger o = __name__) (instances w).

(** What the operations on loggers leave alone: the timers, the bars, the
    console streams, the clock and the environment. *)
Definition same_io (w w' : World) : Prop :=
  timers w' = timers w /\ bars w' = bars w /\ stdout w' = stdout w
  /\ stderr w' = stderr w /\ ticks w' = ticks w /\ denied w' = denied w
  /\ now w' = now w /\ asctime w' = asctime w.

(** [h] with its level set to [z]. *)
Definition with_level (z : Z) (h : Handler) : Handler :=
  mkHandler (hkind h) z (hformatter h).

(** The file handler [set_log_file] attaches and the console handler
    [__init__] attaches. *)
Definition file_handler (p : string) : Handler :=
  mkHandler (FileHandler p) DEBUG LoggerFormat.
Definition console_handler (lvl : Z) : Handler :=
  mkHandler StreamHandler lvl LoggerFormat.

(** What [Logger(log_file, level)] attaches besides the console handler. *)
Definition attached_file (f : option string) (w : World) : list Handler :=
  match f with
  | Some p =>
      if decide (p ∈ denied w) then []
      else if existsb isFileHandler (handlers (logging.getLogger __name__ w))
           then [] else [file_handler p]
  | None => []
  end.

(** The five severities and the method of [Logger] for each. *)
Inductive severity : Type := Debug | Info | Warning | Error | Critical.

Definition severity_level (s : severity) : Z :=
  match s with
  | Debug => DEBUG
  | Info => INFO
  | Warning => WARNING
  | Error => ERROR
  | Critical => CRITICAL
  end.

Definition Logger_call (s : severity) : nat -> string -> M unit :=
  match s with
  | Debug => Logger.debug
  | Info => Logger.info
  | Warning => Logger.warning
  | Error => Logger.error
  | Critical => Logger.critical
  end.

(** ** A concrete interpreter for the examples *)

(** A clock that starts at 100 s and advances by 0.75 s at each reading,
    and a formatter of time that always prints the same stamp. *)
Fixpoint clock (n : nat) : float :=
  match n with
  | O => 100%float
  | S k => PrimFloat.add (clock k) 0.75%float
  end.

Definition stamp (t : float) : string := "2024-01-01 00:00:00,000".

(** The interpreter right after [import py_utils.logger]. *)
Definition booted : World := snd (import_logger (fresh ∅ clock stamp)).

(** Configuring the default logger with a file, then with another file,
    then logging one message. *)
Definition reconfigure_then_log : M unit :=
  Logger.set_params logger "INFO" (Some "a.log") ;;;
  Logger.set_params logger "INFO" (Some "b.log") ;;;
  Logger.info logger "x".

(** The interpreter after a series of [Logger(log_file, level)] calls,
    given by their arguments, each one run whether or not the one before
    raised. *)
Definition after_constructions (args : list (option string * Z))
    (w : World) : World :=
  fold_left (fun w a => snd (Logger.__init__ (fst a) (snd a) w)) args w.

(** The world [wm] in which [__exit__] hands its report to the logger of
    the timer, seen from the world [w] in which [__exit__] started: one
    reading of the clock later, with the loggers, the instances and
    everything written so far as they were. *)
Definition before_report (w wm : World) : Prop :=
  loggerDict wm = loggerDict w /\ instances wm = instances w
  /\ fs wm = fs w /\ stderr wm = stderr w /\ stdout wm = stdout w
  /\ ticks wm = S (ticks w) /\ now wm = now w /\ asctime wm = asctime w.

(** A decimal digit. *)
Definition is_digit (c : ascii) : bool :=
  ((48 <=? nat_of_ascii c)%nat && (nat_of_ascii c <=? 57)%nat)%bool.

(** A float that is a number: neither an infinity nor a NaN. *)
Definition is_finite (x : float) : bool :=
  match Prim2SF x with
  | S754_nan | S754_infinity _ => false
  | S754_zero _ | S754_finite _ _ _ => true
  end.

(** The timer [t] with a bar still open in [w], if it has one, and with a
    logger that exists, if it has one. *)
Definition bar_open (t : TimerObj) (w : World) : Prop :=
  forall b, t_progress_bar t = Some b ->
    exists bar, bars w !! b = Some bar /\ bar_closes bar = 0%nat.

Definition logger_exists (t : TimerObj) (w : World) : Prop :=
  forall i, t_logger t = Some (Facade i) -> is_Some (instances w !! i).

(** The text of the two trace messages of [log_function]. *)
Definition BEGIN_of {A B} (func : Fn A B) : string :=
  fn_module func +:+ "." +:+ fn_name func +:+ " BEGIN".
Definition END_of {A B} (func : Fn A B) : string :=
  fn_module func +:+ "." +:+ fn_name func +:+ " END".

(** Using what [log_function] returns on a function: the wrapped function
    itself in the bare form [@log_function], the decorator applied to the
    function in the form [@log_function(logger_instance=...)]. *)
Definition decorate {A B} (d : decorated A B) (f : Fn A B) : Fn A B :=
  match d with
  | Wrapped g => g
  | Decorator dec => dec f
  end.

(** [def add(a, b): return a + b] and a function that raises. *)
Definition add : Fn (Z * Z) Z :=
  mkFn "__main__" "add" (fun ab => ret (fst ab + snd ab)%Z).

Definition explode : Fn unit Z :=
  mkFn "__main__" "explode"
    (fun _ => raise (Exn "ZeroDivisionError" "division by zero")).

(** The interpreter after import, with the default logger set to DEBUG. *)
Definition booted_DEBUG : World :=
  snd (Logger.set_params logger "DEBUG" None booted).


Definition empty_block (timer : nat) : M unit := ret tt.

(** [with Timer("job"): pass], and the same after [set_logger] with the
    default [Logger]. *)
Definition plain_timer : M unit :=
  t <- Timer.__init__ "job" None None ;;
  with_Timer t empty_block.

Definition late_logger_timer : M unit :=
  t <- Timer.__init__ "job" None None ;;
  Timer.set_logger t (Facade logger) ;;;
  with_Timer t empty_block.

(** ** Sessions

    A session is a series of calls on the [Logger] class and its instances,
    each one run on the world the one before left, whether it returned or
    raised (as at an interactive prompt, or in a script that catches the
    exceptions). *)
Inductive call : Type :=
  | New (log_file : option string) (lvl : Z)
  | SetParams (self : nat) (log_level : string) (log_file : option string)
  | SetLogFile (self : nat) (p : string)
  | ClearLogFile (self : nat)
  | Log (s : severity) (self : nat) (msg : string)
  | ProcessingLog (self : nat) (msg : string).

Definition do_call (c : call) (w : World) : World :=
  match c with
  | New f lvl => snd (Logger.__init__ f lvl w)
  | SetParams self s f => snd (Logger.set_params self s f w)
  | SetLogFile self p => snd (Logger.set_log_file self p w)
  | ClearLogFile self => snd (Logger.clear_log_file self w)
  | Log s self msg => snd (Logger_call s self msg w)
  | ProcessingLog self msg => snd (Logger.processing_log self msg w)
  end.

Definition session (cs : list call) (w : World) : World :=
  fold_left (fun w c => do_call c w) cs w.

(** The number of constructions in a session. *)
Definition constructions (cs : list call) : nat :=
  length (List.filter (fun c => match c with New _ _ => true | _ => false end) cs).



(** The name of each severity, as [set_params] takes it. *)
Definition severity_name (s : severity) : string :=
  match s with
  | Debug => "DEBUG"
  | Info => "INFO"
  | Warning => "WARNING"
  | Error => "ERROR"
  | Critical => "CRITICAL"
  end.

(** The interpreter after import when ["/proc/x.log"] cannot be opened. *)
Definition booted_denied : World :=
  snd (import_logger (fresh {["/proc/x.log"]} clock stamp)).

(** The state every session keeps: all instances on the logger of the
    module, at most one file handler on it, and as many console handlers
    and instances as there were constructions. *)
Definition well_formed (n : nat) (w : World) : Prop :=
  shared w
  /\ (length (file_handlers w) <= 1)%nat
  /\ length (console_handlers w) = n
  /\ length (instances w) = n.

(** * Properties *)

(** ** Text helpers *)

Lemma split_lines_aux_LF (cur s1 s2 : string) :
  split_lines_aux cur (s1 +:+ String (ascii_of_nat 10) s2)
  = split_lines_aux cur s1 ++ split_lines s2.
Proof.
  revert cur. induction s1 as [|c s1 IH]; intros cur; simpl.
  - reflexivity.
  - destruct (Ascii.eqb c (ascii_of_nat 10)).
    + simpl. f_equal. apply IH.
    + apply IH.
Qed.

Lemma append_cons (c : ascii) (s t : string) :
  String c s +:+ t = String c (s +:+ t).
Proof. reflexivity. Qed.

Lemma append_nil_r (s : string) : s +:+ "" = s.
Proof.
  induction s as [|c s IH]; [reflexivity|].
  rewrite append_cons. now rewrite IH.
Qed.

Lemma append_snoc (cur : string) (c : ascii) (s : string) :
  (cur +:+ String c "") +:+ s = cur +:+ String c s.
Proof.
  induction cur as [|a cur IH]; [reflexivity|].
  rewrite !append_cons. now rewrite IH.
Qed.

Lemma split_lines_aux_no_LF (cur s : string) :
  has_LF s = false -> split_lines_aux cur s = [cur +:+ s].
Proof.
  revert cur. induction s as [|c s IH]; intros cur H; simpl in *.
  - now rewrite append_nil_r.
  - apply orb_false_iff in H as [Hc Hs]. rewrite Hc.
    rewrite (IH _ Hs). now rewrite append_snoc.
Qed.

(** A message of one line is one line. *)
Lemma split_lines_one (s : string) :
  has_LF s = false -> split_lines s = [s].
Proof. intros H. unfold split_lines. now rewrite split_lines_aux_no_LF. Qed.

(** ** C4: the section banner *)

(** C4, as the code has it.  [processing_log] logs one record at INFO whose
    text is a line feed, the separator, the message and the separator: its
    lines are an empty first line (the prefix of the handler's format stays
    alone on it), a separator of 40 ['='], the lines of the message, and the
    same separator. *)
Theorem processing_log_lines (self : nat) (msg : string) (w : World) :
  Logger.processing_log self msg w = Logger.info self (Logger.outmsg msg) w
  /\ split_lines (Logger.outmsg msg)
     = [""; repeat_eq 40] ++ split_lines msg ++ [repeat_eq 40].
Proof.
  split; [reflexivity|].
  unfold Logger.outmsg, split_lines.
  change (LF +:+ ?s) with ("" +:+ String (ascii_of_nat 10) s).
  rewrite split_lines_aux_LF. simpl split_lines_aux at 1.
  change ("========================================" +:+ LF +:+ ?s)
    with ("========================================"
            +:+ String (ascii_of_nat 10) s).
  unfold split_lines. rewrite split_lines_aux_LF.
  change (msg +:+ LF +:+ ?s) with (msg +:+ String (ascii_of_nat 10) s).
  unfold split_lines.
  rewrite split_lines_aux_LF. reflexivity.
Qed.

(** C4 as stated fails: the text logged for ["X"] has four lines, the first
    one empty, not three. *)
Lemma processing_log_not_three_lines :
  split_lines (Logger.outmsg "X") <> [repeat_eq 40; "X"; repeat_eq 40]
  /\ split_lines (Logger.outmsg "X") = [""; repeat_eq 40; "X"; repeat_eq 40].
Proof. split; [discriminate | reflexivity]. Qed.

(** ** What a log call writes *)

Section CallHandlers.
Variables (lvl : Z) (asct msg : string).

Lemma emit_stderr (h : Handler) (w : World) :
  stderr (logging.emit h asct (getLevelName lvl) msg w)
  = stderr w ++ (if isConsoleHandler h then [text_of h asct lvl msg] else []).
Proof.
  unfold logging.emit, isConsoleHandler, isFileHandler, text_of.
  destruct (hkind h); simpl; [reflexivity|]. now rewrite app_nil_r.
Qed.

Lemma emit_file (h : Handler) (w : World) (p : string) :
  file_content (logging.emit h asct (getLevelName lvl) msg w) p
  = file_content w p ++ (if writes_to p h then [text_of h asct lvl msg] else []).
Proof.
  unfold logging.emit, writes_to, file_content, text_of.
  destruct (hkind h) as [|q]; simpl; [now rewrite app_nil_r|].
  case_bool_decide as Hq.
  - subst q. now rewrite lookup_insert_eq.
  - rewrite lookup_insert_ne by done. now rewrite app_nil_r.
Qed.

Lemma emit_frame (h : Handler) (w : World) :
  let w' := logging.emit h asct (getLevelName lvl) msg w in
  loggerDict w' = loggerDict w /\ instances w' = instances w
  /\ timers w' = timers w /\ bars w' = bars w /\ stdout w' = stdout w
  /\ ticks w' = ticks w /\ denied w' = denied w
  /\ now w' = now w /\ asctime w' = asctime w.
Proof. unfold logging.emit. destruct (hkind h); simpl; repeat split. Qed.

Lemma fold_step_stderr (hs : list Handler) (w : World) :
  stderr (fold_left (logging.handle lvl asct msg) hs w)
  = stderr w
    ++ map (fun h => text_of h asct lvl msg)
         (List.filter
            (fun h => (isConsoleHandler h && (hlevel h <=? lvl)%Z)%bool) hs).
Proof.
  revert w. induction hs as [|h hs IH]; intros w; simpl.
  - now rewrite app_nil_r.
  - rewrite IH. unfold logging.handle.
    destruct (hlevel h <=? lvl)%Z.
    + rewrite emit_stderr, andb_true_r.
      destruct (isConsoleHandler h); simpl.
      * now rewrite <- app_assoc.
      * now rewrite app_nil_r.
    + now rewrite andb_false_r.
Qed.

Lemma fold_step_file (hs : list Handler) (w : World) (p : string) :
  file_content (fold_left (logging.handle lvl asct msg) hs w) p
  = file_content w p
    ++ map (fun h => text_of h asct lvl msg)
         (List.filter
            (fun h => (writes_to p h && (hlevel h <=? lvl)%Z)%bool) hs).
Proof.
  revert w. induction hs as [|h hs IH]; intros w; simpl.
  - now rewrite app_nil_r.
  - rewrite IH. unfold logging.handle.
    destruct (hlevel h <=? lvl)%Z.
    + rewrite emit_file, andb_true_r.
      destruct (writes_to p h); simpl.
      * now rewrite <- app_assoc.
      * now rewrite app_nil_r.
    + now rewrite andb_false_r.
Qed.

Lemma fold_step_frame (hs : list Handler) (w : World) :
  let w' := fold_left (logging.handle lvl asct msg) hs w in
  loggerDict w' = loggerDict w /\ instances w' = instances w
  /\ timers w' = timers w /\ bars w' = bars w /\ stdout w' = stdout w
  /\ ticks w' = ticks w /\ denied w' = denied w
  /\ now w' = now w /\ asctime w' = asctime w.
Proof.
  revert w. induction hs as [|h hs IH]; intros w; simpl.
  - repeat split.
  - specialize (IH (logging.handle lvl asct msg w h)). simpl in IH.
    assert (Hs : loggerDict (logging.handle lvl asct msg w h) = loggerDict w
                 /\ instances (logging.handle lvl asct msg w h) = instances w
                 /\ timers (logging.handle lvl asct msg w h) = timers w /\ bars (logging.handle lvl asct msg w h) = bars w
                 /\ stdout (logging.handle lvl asct msg w h) = stdout w /\ ticks (logging.handle lvl asct msg w h) = ticks w
                 /\ denied (logging.handle lvl asct msg w h) = denied w
                 /\ now (logging.handle lvl asct msg w h) = now w /\ asctime (logging.handle lvl asct msg w h) = asctime w).
    { unfold logging.handle. destruct (hlevel h <=? lvl)%Z;
        [apply emit_frame | repeat split]. }
    destruct IH as (?&?&?&?&?&?&?&?&?), Hs as (?&?&?&?&?&?&?&?&?).
    repeat split; congruence.
Qed.

End CallHandlers.

Lemma filter_none {A} (f : A -> bool) (l : list A) :
  (forall x, f x = false) -> List.filter f l = [].
Proof.
  intros H. induction l as [|x l IH]; simpl; [reflexivity|].
  now rewrite H.
Qed.

Lemma callHandlers_fold (hs : list Handler) lvl asct msg w :
  hs <> [] ->
  logging.callHandlers hs lvl asct msg w
  = fold_left (logging.handle lvl asct msg) hs w.
Proof. destruct hs; [congruence | reflexivity]. Qed.

(** A log call never raises and touches nothing but the clock, standard
    error and the files. *)
Lemma log_frame (name : string) (lvl : Z) (msg : string) (w : World) :
  let w' := snd (logging.log name lvl msg w) in
  fst (logging.log name lvl msg w) = Ret tt
  /\ loggerDict w' = loggerDict w /\ instances w' = instances w
  /\ timers w' = timers w /\ bars w' = bars w /\ stdout w' = stdout w
  /\ denied w' = denied w /\ now w' = now w /\ asctime w' = asctime w.
Proof.
  unfold logging.log.
  destruct (isEnabledFor (logging.getLogger name w) lvl); simpl;
    [|repeat split].
  split; [reflexivity|].
  unfold logging.callHandlers.
  destruct (handlers (logging.getLogger name w)) as [|h hs] eqn:E.
  - destruct (WARNING <=? lvl)%Z; simpl; repeat split.
  - pose proof (fold_step_frame lvl
                  (asctime w (now w (ticks w))) msg (h :: hs) (set_ticks S w))
      as F.
    simpl in F. destruct F as (?&?&?&?&?&?&?&?&?).
    simpl. repeat split; assumption.
Qed.

(** What a log call writes: each handler of the logger writes its text
    exactly when the record reaches it. *)
Lemma log_writes (name : string) (lvl : Z) (msg : string) (w : World) :
  let lg := logging.getLogger name w in
  let asct := asctime w (now w (ticks w)) in
  let w' := snd (logging.log name lvl msg w) in
  handlers lg <> [] ->
  stderr w'
  = stderr w
    ++ map (fun h => text_of h asct lvl msg)
         (List.filter (fun h => (isConsoleHandler h && reaches lg h lvl)%bool)
            (handlers lg))
  /\ forall p,
      file_content w' p
      = file_content w p
        ++ map (fun h => text_of h asct lvl msg)
             (List.filter (fun h => (writes_to p h && reaches lg h lvl)%bool)
                (handlers lg)).
Proof.
  intros lg asct w' Hne. subst w'. unfold logging.log. fold lg.
  unfold reaches.
  destruct (isEnabledFor lg lvl) eqn:En; simpl.
  - rewrite callHandlers_fold by exact Hne. fold asct. split.
    + rewrite fold_step_stderr. reflexivity.
    + intros p. rewrite fold_step_file. reflexivity.
  - split.
    + rewrite filter_none; [now rewrite app_nil_r|].
      intros h. apply andb_false_r.
    + intros p. rewrite filter_none; [now rewrite app_nil_r|].
      intros h. apply andb_false_r.
Qed.

(** ** Removing the file handlers *)

Lemma removeHandler_console (h : Handler) (hs : list Handler) :
  isFileHandler h = true ->
  List.filter isConsoleHandler (logging.removeHandler h hs)
  = List.filter isConsoleHandler hs.
Proof.
  intros Hf. induction hs as [|x hs IH]; simpl; [reflexivity|].
  destruct (decide (x = h)) as [->|Hne].
  - unfold isConsoleHandler at 2. now rewrite Hf.
  - simpl. now rewrite IH.
Qed.

Lemma count_occ_removeHandler (x h : Handler) (hs : list Handler) :
  count_occ Handler_eq_dec (logging.removeHandler h hs) x
  = if decide (x = h) then Nat.pred (count_occ Handler_eq_dec hs x)
    else count_occ Handler_eq_dec hs x.
Proof.
  induction hs as [|y hs IH]; simpl.
  - now destruct (decide (x = h)).
  - destruct (decide (y = h)) as [->|Hyh].
    + destruct (Handler_eq_dec h x) as [->|Hhx].
      * now destruct (decide (x = x)).
      * destruct (decide (x = h)); [congruence | reflexivity].
    + simpl. rewrite IH.
      destruct (Handler_eq_dec y x) as [->|Hyx].
      * destruct (decide (x = h)); [congruence | reflexivity].
      * reflexivity.
Qed.

Lemma no_file_handler_filter (hs : list Handler) :
  (forall x, isFileHandler x = true -> count_occ Handler_eq_dec hs x = 0%nat) ->
  List.filter isConsoleHandler hs = hs.
Proof.
  induction hs as [|a hs IH]; intros H; simpl; [reflexivity|].
  unfold isConsoleHandler at 1.
  destruct (isFileHandler a) eqn:Fa; simpl.
  - specialize (H a Fa). simpl in H.
    destruct (Handler_eq_dec a a); [discriminate | congruence].
  - f_equal. apply IH. intros x Fx. specialize (H x Fx). simpl in H.
    destruct (Handler_eq_dec a x); [discriminate | assumption].
Qed.

Lemma remove_loop (c acc : list Handler) :
  (forall x, isFileHandler x = true ->
     count_occ Handler_eq_dec c x = count_occ Handler_eq_dec acc x) ->
  fold_left
    (fun acc h => if isFileHandler h then logging.removeHandler h acc else acc)
    c acc
  = List.filter isConsoleHandler acc.
Proof.
  revert acc. induction c as [|h c IH]; intros acc H; simpl.
  - symmetry. apply no_file_handler_filter. intros x Fx.
    now rewrite <- (H x Fx).
  - destruct (isFileHandler h) eqn:Fh.
    + rewrite IH.
      * now apply removeHandler_console.
      * intros x Fx. rewrite count_occ_removeHandler.
        specialize (H x Fx). simpl in H.
        destruct (Handler_eq_dec h x) as [->|Hhx].
        -- destruct (decide (x = x)); [|congruence]. rewrite <- H. reflexivity.
        -- destruct (decide (x = h)); [congruence | assumption].
    + apply IH. intros x Fx. specialize (H x Fx). simpl in H.
      destruct (Handler_eq_dec h x) as [->|Hhx]; [congruence | assumption].
Qed.

(** The loop of [clear_log_file] leaves exactly the handlers that are not
    file handlers, in their order. *)
Lemma remove_file_handlers_filter (hs : list Handler) :
  Logger.remove_file_handlers hs = List.filter isConsoleHandler hs.
Proof. unfold Logger.remove_file_handlers. now apply remove_loop. Qed.

(** The loop of [set_params] over the handlers, once the level has passed
    the check. *)
Lemma setLevel_all_ok (v : pyval) (z : Z) (hs : list Handler) :
  _checkLevel v = Ret z ->
  Logger.setLevel_all v hs
  = Ret (map (fun h => mkHandler (hkind h) z (hformatter h)) hs).
Proof.
  intros Hv. induction hs as [|h hs IH]; simpl; [reflexivity|].
  unfold logging.Handler_setLevel. rewrite Hv, IH. reflexivity.
Qed.

(** ** The operations of [Logger], one by one *)

Lemma bind_Ret {A B} (m : M A) (k : A -> M B) (w w1 : World) (a : A) :
  m w = (Ret a, w1) -> bind m k w = k a w1.
Proof. intros H. unfold bind. now rewrite H. Qed.

Lemma bind_Raise {A B} (m : M A) (k : A -> M B) (w w1 : World) (e : exn) :
  m w = (Raise e, w1) -> bind m k w = (Raise e, w1).
Proof. intros H. unfold bind. now rewrite H. Qed.

Lemma bind_assoc {A B C} (m : M A) (f : A -> M B) (g : B -> M C) (w : World) :
  bind (bind m f) g w = bind m (fun x => bind (f x) g) w.
Proof. unfold bind. destruct (m w) as [[a|e] w1]; reflexivity. Qed.

Lemma PyLogger_eta (lg : PyLogger) : mkPyLogger (level lg) (handlers lg) = lg.
Proof. now destruct lg. Qed.

Lemma getLogger_insert_eq (n : string) (lg : PyLogger) (w : World) :
  logging.getLogger n (set_loggerDict (fun d => <[n := lg]> d) w) = lg.
Proof. unfold logging.getLogger. simpl. now rewrite lookup_insert_eq. Qed.

Lemma getLogger_insert_ne (n m : string) (lg : PyLogger) (w : World) :
  m <> n ->
  logging.getLogger m (set_loggerDict (fun d => <[n := lg]> d) w)
  = logging.getLogger m w.
Proof.
  intros H. unfold logging.getLogger. simpl. now rewrite lookup_insert_ne.
Qed.

Lemma same_io_refl (w : World) : same_io w w.
Proof. unfold same_io. repeat split. Qed.

Lemma same_io_trans (w1 w2 w3 : World) :
  same_io w1 w2 -> same_io w2 w3 -> same_io w1 w3.
Proof.
  unfold same_io. intros (?&?&?&?&?&?&?&?) (?&?&?&?&?&?&?&?).
  repeat split; congruence.
Qed.

(** [set_log_file] on a path that can be opened. *)
Lemma set_log_file_spec (self : nat) (p : string) (o : LoggerObj) (w : World) :
  instances w !! self = Some o ->
  p ∉ denied w ->
  let lg := logging.getLogger (self_logger o) w in
  exists w',
    Logger.set_log_file self p w = (Ret tt, w')
    /\ instances w' = <[self := mkLoggerObj (self_logger o) (Some p)]> (instances w)
    /\ logging.getLogger (self_logger o) w'
       = mkPyLogger (level lg)
           (if existsb isFileHandler (handlers lg) then handlers lg
            else handlers lg ++ [file_handler p])
    /\ (forall n, n <> self_logger o ->
          logging.getLogger n w' = logging.getLogger n w)
    /\ fs w' = <[p := []]> (fs w)
    /\ same_io w w'.
Proof.
  intros Hi Hp lg.
  unfold Logger.set_log_file, bind, Logger.get, Logger.put, open_w, open_a,
    logging.addHandler, logging.update, same_io.
  rewrite Hi. simpl.
  destruct (decide (p ∈ denied w)) as [|_]; [contradiction|]. simpl.
  change (logging.getLogger (self_logger o) (set_fs _ (set_instances _ w)))
    with lg.
  destruct (existsb isFileHandler (handlers lg)) eqn:Ex.
  - eexists. split; [reflexivity|]. simpl.
    repeat split. symmetry. apply PyLogger_eta.
  - destruct (decide (p ∈ denied w)) as [|_]; [contradiction|].
    eexists. split; [reflexivity|].
    change (logging.getLogger (self_logger o)
              (set_fs _ (set_fs _ (set_instances _ w)))) with lg.
    rewrite getLogger_insert_eq. simpl.
    repeat split.
    + intros n Hn. now rewrite getLogger_insert_ne.
    + rewrite lookup_insert_eq. simpl. now rewrite insert_insert_eq.
Qed.

(** [set_log_file] on a path that cannot be opened: the attribute is set,
    then [open] raises. *)
Lemma set_log_file_denied (self : nat) (p : string) (o : LoggerObj) (w : World) :
  instances w !! self = Some o ->
  p ∈ denied w ->
  exists w',
    Logger.set_log_file self p w = (Raise (Exn "PermissionError" p), w')
    /\ loggerDict w' = loggerDict w /\ fs w' = fs w /\ same_io w w'.
Proof.
  intros Hi Hp.
  unfold Logger.set_log_file, bind, Logger.get, Logger.put, open_w, same_io.
  rewrite Hi. simpl.
  destruct (decide (p ∈ denied w)) as [_|]; [|contradiction].
  eexists. split; [reflexivity|]. simpl. repeat split.
Qed.

Lemma clear_log_file_spec (self : nat) (o : LoggerObj) (w : World) :
  instances w !! self = Some o ->
  let lg := logging.getLogger (self_logger o) w in
  exists w',
    Logger.clear_log_file self w = (Ret tt, w')
    /\ instances w' = <[self := mkLoggerObj (self_logger o) None]> (instances w)
    /\ logging.getLogger (self_logger o) w'
       = mkPyLogger (level lg) (List.filter isConsoleHandler (handlers lg))
    /\ (forall n, n <> self_logger o ->
          logging.getLogger n w' = logging.getLogger n w)
    /\ fs w' = fs w
    /\ same_io w w'.
Proof.
  intros Hi lg.
  unfold Logger.clear_log_file, bind, Logger.get, Logger.put, logging.update,
    same_io.
  rewrite Hi. simpl.
  eexists. split; [reflexivity|].
  change (logging.getLogger (self_logger o) (set_instances _ w)) with lg.
  rewrite getLogger_insert_eq, remove_file_handlers_filter. simpl.
  repeat split.
  intros n Hn. now rewrite getLogger_insert_ne.
Qed.

Lemma existsb_with_level (z : Z) (hs : list Handler) :
  existsb isFileHandler (map (with_level z) hs) = existsb isFileHandler hs.
Proof.
  induction hs as [|h hs IH]; simpl; [reflexivity|]. now rewrite IH.
Qed.

Lemma filter_with_level (z : Z) (f : Handler -> bool) (hs : list Handler) :
  (forall h, f (with_level z h) = f h) ->
  List.filter f (map (with_level z) hs) = map (with_level z) (List.filter f hs).
Proof.
  intros Hf. induction hs as [|h hs IH]; simpl; [reflexivity|].
  rewrite Hf. destruct (f h); simpl; now rewrite IH.
Qed.

(** The first half of [set_params]: the level goes to the logger and to
    every handler it has. *)
Lemma set_params_levels (name : string) (v : pyval) (z : Z) (w : World) :
  _checkLevel v = Ret z ->
  let lg := logging.getLogger name w in
  exists w2,
    (logging.setLevel name v ;;;
     (fun w =>
        match Logger.setLevel_all v (handlers (logging.getLogger name w)) with
        | Ret hs => logging.update name (fun lg => mkPyLogger (level lg) hs) w
        | Raise e => (Raise e, w)
        end)) w = (Ret tt, w2)
    /\ instances w2 = instances w
    /\ logging.getLogger name w2
       = mkPyLogger z (map (with_level z) (handlers lg))
    /\ (forall n, n <> name -> logging.getLogger n w2 = logging.getLogger n w)
    /\ fs w2 = fs w
    /\ same_io w w2.
Proof.
  intros Hv lg.
  unfold logging.setLevel, bind, lift, logging.update. rewrite Hv.
  rewrite getLogger_insert_eq. simpl handlers.
  rewrite (setLevel_all_ok v z _ Hv).
  eexists. split; [reflexivity|].
  rewrite !getLogger_insert_eq. unfold same_io. simpl.
  repeat split.
  intros n Hn. now rewrite !getLogger_insert_ne.
Qed.

(** [set_params] with a level that passes the check and a path, if any,
    that can be opened. *)
Lemma set_params_spec (self : nat) (s : string) (f : option string)
    (o : LoggerObj) (z : Z) (w : World) :
  instances w !! self = Some o ->
  _checkLevel (getattr_logging (upper s) (PyInt INFO)) = Ret z ->
  (forall p, f = Some p -> p ∉ denied w) ->
  let lg := logging.getLogger (self_logger o) w in
  let hs := map (with_level z) (handlers lg) in
  exists w',
    Logger.set_params self s f w = (Ret tt, w')
    /\ instances w' = <[self := mkLoggerObj (self_logger o) f]> (instances w)
    /\ logging.getLogger (self_logger o) w'
       = mkPyLogger z
           match f with
           | Some p =>
               if existsb isFileHandler (handlers lg) then hs
               else hs ++ [file_handler p]
           | None => List.filter isConsoleHandler hs
           end
    /\ (forall n, n <> self_logger o ->
          logging.getLogger n w' = logging.getLogger n w)
    /\ fs w' = match f with Some p => <[p := []]> (fs w) | None => fs w end
    /\ same_io w w'.
Proof.
  intros Hi Hv Hf lg hs.
  destruct (set_params_levels (self_logger o) _ z w Hv)
    as (w2 & E2 & I2 & L2 & O2 & F2 & S2).
  fold lg in L2. fold hs in L2.
  unfold Logger.set_params. unfold bind at 1. unfold Logger.get at 1.
  rewrite Hi. rewrite <- bind_assoc. rewrite (bind_Ret _ _ _ _ _ E2).
  assert (Hi2 : instances w2 !! self = Some o) by now rewrite I2.
  destruct f as [p|].
  - assert (Hp : p ∉ denied w2).
    { destruct S2 as (_&_&_&_&_&D&_). rewrite D. now apply Hf. }
    destruct (set_log_file_spec self p o w2 Hi2 Hp)
      as (w' & E & I & L & O & F & S).
    exists w'. split; [exact E|]. rewrite L2 in L. simpl in L.
    unfold hs at 1. rewrite <- (existsb_with_level z). fold hs.
    refine (conj _ (conj _ (conj _ (conj _ _)))).
    + now rewrite I, I2.
    + exact L.
    + intros n Hn. now rewrite O, O2.
    + now rewrite F, F2.
    + eapply same_io_trans; eassumption.
  - destruct (clear_log_file_spec self o w2 Hi2)
      as (w' & E & I & L & O & F & S).
    exists w'. split; [exact E|]. rewrite L2 in L. simpl in L.
    refine (conj _ (conj _ (conj _ (conj _ _)))).
    + now rewrite I, I2.
    + exact L.
    + intros n Hn. now rewrite O, O2.
    + now rewrite F, F2.
    + eapply same_io_trans; eassumption.
Qed.

(** [set_params] with a level that does not pass the check: the exception
    of [setLevel] goes out and nothing has changed. *)
Lemma set_params_raises (self : nat) (s : string) (f : option string)
    (o : LoggerObj) (e : exn) (w : World) :
  instances w !! self = Some o ->
  _checkLevel (getattr_logging (upper s) (PyInt INFO)) = Raise e ->
  Logger.set_params self s f w = (Raise e, w).
Proof.
  intros Hi Hv.
  unfold Logger.set_params, bind, Logger.get, logging.setLevel, bind, lift.
  rewrite Hi, Hv. reflexivity.
Qed.

(** [Logger(log_file, level)], whether or not the file can be opened: the
    level goes to the logger of the module, which gets one more console
    handler, and a file handler when the path can be opened and the logger
    has none. *)
Lemma init_spec (f : option string) (lvl : Z) (w : World) :
  let lg := logging.getLogger __name__ w in
  let self := length (instances w) in
  exists r w',
    Logger.__init__ f lvl w = (r, w')
    /\ r = match f with
           | Some p =>
               if decide (p ∈ denied w)
               then Raise (Exn "PermissionError" p) else Ret self
           | None => Ret self
           end
    /\ instances w' = instances w ++ [mkLoggerObj __name__ f]
    /\ logging.getLogger __name__ w'
       = mkPyLogger lvl
           (handlers lg ++ [console_handler lvl] ++ attached_file f w)
    /\ (forall n, n <> __name__ ->
          logging.getLogger n w' = logging.getLogger n w)
    /\ same_io w w'.
Proof.
  intros lg self.
  set (w0 := set_instances (fun l => l ++ [mkLoggerObj __name__ f]) w).
  set (w2 := set_loggerDict
               (fun d => <[__name__ :=
                             mkPyLogger lvl (handlers lg ++ [console_handler lvl])]> d)
               (set_loggerDict
                  (fun d => <[__name__ := mkPyLogger lvl (handlers lg)]> d) w0)).
  assert (E1 : logging.setLevel __name__ (PyInt lvl) w0
               = (Ret tt, set_loggerDict
                            (fun d => <[__name__ := mkPyLogger lvl (handlers lg)]> d)
                            w0)) by reflexivity.
  assert (E2 : logging.addHandler __name__ (console_handler lvl)
                 (set_loggerDict
                    (fun d => <[__name__ := mkPyLogger lvl (handlers lg)]> d) w0)
               = (Ret tt, w2)).
  { unfold logging.addHandler, logging.update.
    rewrite getLogger_insert_eq. reflexivity. }
  assert (L2 : logging.getLogger __name__ w2
               = mkPyLogger lvl (handlers lg ++ [console_handler lvl])).
  { unfold w2. now rewrite getLogger_insert_eq. }
  assert (O2 : forall n, n <> __name__ ->
                 logging.getLogger n w2 = logging.getLogger n w).
  { intros n Hn. unfold w2. now rewrite !getLogger_insert_ne. }
  assert (Hi2 : instances w2 !! self = Some (mkLoggerObj __name__ f)).
  { unfold w2, w0, self. simpl.
    rewrite lookup_app_r by lia. now rewrite Nat.sub_diag. }
  assert (S2 : same_io w w2) by (unfold same_io; repeat split).
  unfold Logger.__init__. fold self.
  erewrite bind_Ret by reflexivity. fold w0.
  rewrite (bind_Ret _ _ _ _ _ E1).
  fold (console_handler lvl). rewrite (bind_Ret _ _ _ _ _ E2).
  unfold attached_file. fold lg.
  destruct f as [p|].
  - destruct (decide (p ∈ denied w)) as [Hd|Hd].
    + destruct (set_log_file_denied self p _ w2 Hi2 Hd)
        as (w' & E & L & F & S).
      assert (G : forall n, logging.getLogger n w' = logging.getLogger n w2).
      { intros n. unfold logging.getLogger. now rewrite L. }
      exists (Raise (Exn "PermissionError" p)), w'.
      rewrite (bind_Raise _ _ _ _ _ E).
      refine (conj eq_refl (conj eq_refl (conj _ (conj _ (conj _ _))))).
      * revert E. unfold Logger.set_log_file, bind, Logger.get, Logger.put,
          open_w. rewrite Hi2. simpl.
        destruct (decide (p ∈ denied w)); [|contradiction].
        intros [= <-]. simpl. fold self.
        apply list_insert_id. rewrite lookup_app_r by lia.
        now rewrite Nat.sub_diag.
      * rewrite G, L2. now rewrite app_nil_r.
      * intros n Hn. now rewrite G, O2.
      * exact (same_io_trans _ _ _ S2 S).
    + destruct (set_log_file_spec self p _ w2 Hi2 Hd)
        as (w' & E & I & L & O & F & S). simpl in *.
      exists (Ret self), w'.
      rewrite (bind_Ret _ _ _ _ _ E).
      refine (conj eq_refl (conj eq_refl (conj _ (conj _ (conj _ _))))).
      * rewrite I. simpl. fold self.
        apply list_insert_id. rewrite lookup_app_r by lia.
        now rewrite Nat.sub_diag.
      * rewrite L, L2. simpl. rewrite existsb_app. simpl.
        rewrite orb_false_r.
        destruct (existsb isFileHandler (handlers lg));
          [reflexivity | now rewrite <- app_assoc].
      * intros n Hn. now rewrite O, O2.
      * exact (same_io_trans _ _ _ S2 S).
  - exists (Ret self), w2. simpl.
    refine (conj eq_refl (conj eq_refl (conj eq_refl (conj _ (conj O2 S2))))).
    now rewrite L2.
Qed.

(** ** Invariants of the logger of the module *)

Lemma shared_lookup (w : World) (self : nat) (o : LoggerObj) :
  shared w -> instances w !! self = Some o -> self_logger o = __name__.
Proof.
  unfold shared. intros H Hi. rewrite Forall_forall in H.
  apply H. eapply list_elem_of_lookup_2. exact Hi.
Qed.

Lemma shared_insert (w : World) (self : nat) (o : LoggerObj) :
  shared w -> self_logger o = __name__ ->
  Forall (fun o => self_logger o = __name__) (<[self := o]> (instances w)).
Proof.
  unfold shared. intros H Ho. rewrite Forall_forall in *.
  intros x Hx.
  apply list_elem_of_lookup in Hx as [i Hi].
  destruct (decide (i = self)) as [->|Hne].
  - destruct (decide (self < length (instances w))%nat) as [Hlt|Hge].
    + rewrite list_lookup_insert_eq in Hi by exact Hlt. congruence.
    + rewrite list_insert_ge in Hi by lia.
      apply H. eapply list_elem_of_lookup_2. exact Hi.
  - rewrite list_lookup_insert_ne in Hi by congruence.
    apply H. eapply list_elem_of_lookup_2. exact Hi.
Qed.

(** The interpreter after import: one instance, the default one, at INFO
    with one console handler. *)
Lemma booted_state :
  instances booted = [mkLoggerObj __name__ None]
  /\ logging.getLogger __name__ booted = mkPyLogger INFO [console_handler INFO]
  /\ shared booted.
Proof.
  split; [reflexivity|]. split; [reflexivity|].
  unfold shared. repeat constructor.
Qed.

(** Constructing an instance keeps every instance on the logger of the
    module. *)
Lemma init_shared (f : option string) (lvl : Z) (w : World) :
  shared w -> shared (snd (Logger.__init__ f lvl w)).
Proof.
  intros H. destruct (init_spec f lvl w) as (r & w' & E & _ & I & _).
  rewrite E. simpl. unfold shared. rewrite I.
  apply Forall_app. split; [exact H|]. repeat constructor.
Qed.

Lemma set_params_shared (self : nat) (s : string) (f : option string)
    (w : World) :
  shared w -> shared (snd (Logger.set_params self s f w)).
Proof.
  intros H.
  destruct (instances w !! self) as [o|] eqn:Hi.
  2:{ unfold Logger.set_params, bind, Logger.get. now rewrite Hi. }
  pose proof (shared_lookup _ _ _ H Hi) as Ho.
  destruct (_checkLevel (getattr_logging (upper s) (PyInt INFO)))
    as [z|e] eqn:Hv.
  2:{ now rewrite (set_params_raises self s f o e w Hi Hv). }
  destruct (set_params_levels (self_logger o) _ z w Hv)
    as (w2 & E2 & I2 & L2 & O2 & F2 & S2).
  assert (Hi2 : instances w2 !! self = Some o) by now rewrite I2.
  assert (H2 : shared w2) by (unfold shared; now rewrite I2).
  unfold Logger.set_params. unfold bind at 1. unfold Logger.get at 1.
  rewrite Hi. rewrite <- bind_assoc. rewrite (bind_Ret _ _ _ _ _ E2).
  destruct f as [p|].
  - destruct (decide (p ∈ denied w2)) as [Hd|Hd].
    + unfold Logger.set_log_file, bind, Logger.get, Logger.put, open_w.
      rewrite Hi2. simpl.
      destruct (decide (p ∈ denied w2)); [|contradiction]. simpl.
      now apply shared_insert.
    + destruct (set_log_file_spec self p o w2 Hi2 Hd) as (w' & E & I & _).
      rewrite E. simpl. unfold shared. rewrite I. now apply shared_insert.
  - destruct (clear_log_file_spec self o w2 Hi2) as (w' & E & I & _).
    rewrite E. simpl. unfold shared. rewrite I. now apply shared_insert.
Qed.

(** ** C1: the file sink *)

Lemma filter_file_with_level (z : Z) (hs : list Handler) :
  length (List.filter isFileHandler (map (with_level z) hs))
  = length (List.filter isFileHandler hs).
Proof.
  rewrite filter_with_level by reflexivity. apply length_map.
Qed.

Lemma filter_file_console (hs : list Handler) :
  List.filter isFileHandler (List.filter isConsoleHandler hs) = [].
Proof.
  induction hs as [|h hs IH]; simpl; [reflexivity|].
  unfold isConsoleHandler at 1.
  destruct (isFileHandler h) eqn:E; simpl; [exact IH|].
  now rewrite E.
Qed.

Lemma existsb_false_filter (hs : list Handler) :
  existsb isFileHandler hs = false -> List.filter isFileHandler hs = [].
Proof.
  induction hs as [|h hs IH]; simpl; [reflexivity|].
  intros H. apply orb_false_iff in H as [Hh Hr]. rewrite Hh. auto.
Qed.

(** At most one file sink: [set_params] never makes a second one. *)
Lemma set_params_one_file_handler (self : nat) (s : string)
    (f : option string) (w : World) :
  shared w ->
  (length (file_handlers w) <= 1)%nat ->
  (length (file_handlers (snd (Logger.set_params self s f w))) <= 1)%nat.
Proof.
  intros Hs H1.
  destruct (instances w !! self) as [o|] eqn:Hi.
  2:{ unfold Logger.set_params, bind, Logger.get. now rewrite Hi. }
  pose proof (shared_lookup _ _ _ Hs Hi) as Ho.
  destruct (_checkLevel (getattr_logging (upper s) (PyInt INFO)))
    as [z|e] eqn:Hv.
  2:{ now rewrite (set_params_raises self s f o e w Hi Hv). }
  destruct (set_params_levels (self_logger o) _ z w Hv)
    as (w2 & E2 & I2 & L2 & O2 & F2 & S2).
  assert (Hi2 : instances w2 !! self = Some o) by now rewrite I2.
  unfold Logger.set_params. unfold bind at 1. unfold Logger.get at 1.
  rewrite Hi. rewrite <- bind_assoc. rewrite (bind_Ret _ _ _ _ _ E2).
  rewrite Ho in *. unfold file_handlers in *.
  destruct f as [p|].
  - destruct (decide (p ∈ denied w2)) as [Hd|Hd].
    + destruct (set_log_file_denied self p o w2 Hi2 Hd) as (w' & E & L & _).
      rewrite E. simpl. unfold logging.getLogger in *. rewrite L.
      rewrite L2. simpl. now rewrite filter_file_with_level.
    + destruct (set_log_file_spec self p o w2 Hi2 Hd) as (w' & E & _ & L & _).
      rewrite E. simpl. rewrite Ho in L. rewrite L, L2. simpl.
      destruct (existsb isFileHandler (map (with_level z)
                  (handlers (logging.getLogger __name__ w)))) eqn:Ex.
      * now rewrite filter_file_with_level.
      * rewrite List.filter_app, (existsb_false_filter _ Ex). simpl. lia.
  - destruct (clear_log_file_spec self o w2 Hi2) as (w' & E & _ & L & _).
    rewrite E. simpl. rewrite Ho in L. rewrite L, L2. simpl.
    rewrite filter_file_console. simpl. lia.
Qed.

(** At most one file sink: constructing an instance never makes a second
    one. *)
Lemma init_one_file_handler (f : option string) (lvl : Z) (w : World) :
  (length (file_handlers w) <= 1)%nat ->
  (length (file_handlers (snd (Logger.__init__ f lvl w))) <= 1)%nat.
Proof.
  intros H1. destruct (init_spec f lvl w) as (r & w' & E & _ & _ & L & _).
  rewrite E. simpl. unfold file_handlers in *. rewrite L. simpl.
  rewrite List.filter_app. simpl. unfold attached_file.
  destruct f as [p|]; [|simpl; rewrite app_nil_r; exact H1].
  destruct (decide (p ∈ denied w)); [simpl; rewrite app_nil_r; exact H1|].
  destruct (existsb isFileHandler (handlers (logging.getLogger __name__ w)))
    eqn:Ex; [simpl; rewrite app_nil_r; exact H1|].
  rewrite (existsb_false_filter _ Ex). simpl. lia.
Qed.

(** The part of C1 that holds: on a logger without a file handler,
    [set_params] with a path that can be opened empties the file and
    attaches one file handler on it. *)
Lemma set_params_attaches (self : nat) (s : string) (p : string)
    (o : LoggerObj) (z : Z) (w : World) :
  instances w !! self = Some o ->
  _checkLevel (getattr_logging (upper s) (PyInt INFO)) = Ret z ->
  p ∉ denied w ->
  existsb isFileHandler (handlers (logging.getLogger (self_logger o) w)) = false ->
  exists w',
    Logger.set_params self s (Some p) w = (Ret tt, w')
    /\ List.filter isFileHandler
         (handlers (logging.getLogger (self_logger o) w')) = [file_handler p]
    /\ file_content w' p = [].
Proof.
  intros Hi Hv Hp Ex.
  destruct (set_params_spec self s (Some p) o z w Hi Hv)
    as (w' & E & _ & L & _ & F & _).
  { intros q [= ->]. exact Hp. }
  exists w'. split; [exact E|]. rewrite L. simpl. rewrite Ex. split.
  - rewrite List.filter_app. rewrite existsb_false_filter.
    + reflexivity.
    + now rewrite existsb_with_level.
  - unfold file_content. rewrite F. now rewrite lookup_insert_eq.
Qed.

(** C1 at the input on which the code departs from it.  The default logger
    is configured with ["a.log"] and then with ["b.log"]; a message logged
    afterwards goes to ["a.log"]: the only file handler is still the one on
    ["a.log"], ["b.log"] was emptied and stays empty, while the attribute
    [log_file] of the instance says ["b.log"]. *)
Theorem second_log_file_not_attached :
  let w := snd (reconfigure_then_log booted) in
  fst (reconfigure_then_log booted) = Ret tt
  /\ file_handlers w = [mkHandler (FileHandler "a.log") INFO LoggerFormat]
  /\ instances w !! logger = Some (mkLoggerObj __name__ (Some "b.log"))
  /\ file_content w "b.log" = []
  /\ file_content w "a.log"
     = [stamp (clock 0) +:+ " - INFO - x" +:+ LF].
Proof. vm_compute. repeat split. Qed.

(** ** C2: two instances *)

(** C2, as the code has it.  Two instances built by [Logger.__init__] log
    through the same [logging.Logger]: [set_params] on [B] leaves the
    attributes of the instance [A] alone (its [log_file]), but the level [A]
    logs at becomes the level given to [B], and the sinks of [A] are the
    sinks of [B]. *)
Theorem set_params_reaches_every_instance (A B : nat) (oA oB : LoggerObj)
    (s : string) (f : option string) (z : Z) (w : World) :
  shared w ->
  A <> B ->
  instances w !! A = Some oA ->
  instances w !! B = Some oB ->
  _checkLevel (getattr_logging (upper s) (PyInt INFO)) = Ret z ->
  (forall p, f = Some p -> p ∉ denied w) ->
  exists w',
    Logger.set_params B s f w = (Ret tt, w')
    /\ instances w' !! A = Some oA
    /\ Logger_level A w' = Some z
    /\ Logger_level A w' = Logger_level B w'
    /\ Logger_sinks A w' = Logger_sinks B w'.
Proof.
  intros Hs Hne HA HB Hv Hf.
  pose proof (shared_lookup _ _ _ Hs HA) as EA.
  pose proof (shared_lookup _ _ _ Hs HB) as EB.
  destruct (set_params_spec B s f oB z w HB Hv Hf)
    as (w' & E & I & L & _).
  exists w'. split; [exact E|].
  assert (HA' : instances w' !! A = Some oA).
  { rewrite I. now rewrite list_lookup_insert_ne by congruence. }
  assert (HB' : instances w' !! B = Some (mkLoggerObj (self_logger oB) f)).
  { rewrite I. apply list_lookup_insert_eq. eapply lookup_lt_Some. exact HB. }
  unfold Logger_level, Logger_sinks. rewrite HA', HB'. simpl.
  rewrite EA, EB in *. rewrite L. simpl. repeat split.
Qed.

Lemma set_params_reaches_every_instance_witness :
  exists w',
    Logger.set_params 1 "ERROR" None (snd (Logger.__init__ None INFO booted))
    = (Ret tt, w')
    /\ instances w' !! 0%nat = Some (mkLoggerObj __name__ None)
    /\ Logger_level 0 w' = Some ERROR
    /\ Logger_level 0 w' = Logger_level 1 w'
    /\ Logger_sinks 0 w' = Logger_sinks 1 w'.
Proof.
  apply (set_params_reaches_every_instance 0 1
           (mkLoggerObj __name__ None) (mkLoggerObj __name__ None)
           "ERROR" None ERROR (snd (Logger.__init__ None INFO booted))).
  - vm_compute. repeat constructor.
  - lia.
  - reflexivity.
  - reflexivity.
  - reflexivity.
  - intros p H. discriminate H.
Defined.

(** C2 as stated fails: with the default instance [A = 0] and a second
    instance [B = 1], [B.set_params("ERROR")] moves the level of [A] from
    INFO to ERROR and the level of the console handler of [A] with it; a
    message [A.info] wrote before is now dropped. *)
Lemma set_params_on_B_changes_A :
  let w := snd (Logger.__init__ None INFO booted) in
  let w' := snd (Logger.set_params 1 "ERROR" None w) in
  Logger_level 0 w = Some INFO
  /\ Logger_level 0 w' = Some ERROR
  /\ Logger_sinks 0 w = Some [console_handler INFO; console_handler INFO]
  /\ Logger_sinks 0 w' = Some [console_handler ERROR; console_handler ERROR]
  /\ length (stderr (snd (Logger.info 0 "x" w))) = 2%nat
  /\ length (stderr (snd (Logger.info 0 "x" w'))) = 0%nat.
Proof. vm_compute. repeat split. Qed.

(** ** C8: which sink receives a message *)

Lemma Logger_call_log (s : severity) (self : nat) (o : LoggerObj)
    (msg : string) (w : World) :
  instances w !! self = Some o ->
  Logger_call s self msg w
  = logging.log (self_logger o) (severity_level s) msg w.
Proof.
  intros Hi.
  destruct s; simpl;
    unfold Logger.debug, Logger.info, Logger.warning, Logger.error,
      Logger.critical, bind, Logger.get; rewrite Hi; reflexivity.
Qed.

Lemma extended_iff {A B} (l : list B) (t : A -> B) (g : A -> bool)
    (hs : list A) :
  l ++ map t (List.filter g hs) <> l <-> exists h, In h hs /\ g h = true.
Proof.
  split.
  - intros H. destruct (List.filter g hs) as [|h r] eqn:E.
    + simpl in H. rewrite app_nil_r in H. congruence.
    + exists h. apply List.filter_In. rewrite E. now left.
  - intros (h & Hin & Hg) Heq.
    assert (Hf : In h (List.filter g hs)) by (apply List.filter_In; auto).
    apply (f_equal (@length B)) in Heq.
    rewrite length_app, length_map in Heq.
    destruct (List.filter g hs); [destruct Hf | simpl in Heq; lia].
Qed.

(** C8, as the code has it.  A message logged through an instance at one of
    the five severities is written by a sink of the logger exactly when the
    severity reaches both the effective level of the logger and the
    threshold of that sink ([reaches]): standard error gains the text of
    each such console handler, the file [p] the text of each such file
    handler on [p], and nothing else is written. *)
Theorem message_reaches_sink_iff (s : severity) (self : nat) (o : LoggerObj)
    (msg : string) (w : World) :
  instances w !! self = Some o ->
  handlers (logging.getLogger (self_logger o) w) <> [] ->
  let lg := logging.getLogger (self_logger o) w in
  let lvl := severity_level s in
  let asct := asctime w (now w (ticks w)) in
  let w' := snd (Logger_call s self msg w) in
  fst (Logger_call s self msg w) = Ret tt
  /\ stderr w'
     = stderr w
       ++ map (fun h => text_of h asct lvl msg)
            (List.filter
               (fun h => (isConsoleHandler h && reaches lg h lvl)%bool)
               (handlers lg))
  /\ (forall p,
        file_content w' p
        = file_content w p
          ++ map (fun h => text_of h asct lvl msg)
               (List.filter (fun h => (writes_to p h && reaches lg h lvl)%bool)
                  (handlers lg)))
  /\ (stderr w' <> stderr w
      <-> exists h, In h (handlers lg)
                    /\ (isConsoleHandler h && reaches lg h lvl)%bool = true)
  /\ (forall p,
        file_content w' p <> file_content w p
        <-> exists h, In h (handlers lg)
                      /\ (writes_to p h && reaches lg h lvl)%bool = true).
Proof.
  intros Hi Hne lg lvl asct w'. subst w'.
  rewrite (Logger_call_log s self o msg w Hi).
  destruct (log_frame (self_logger o) lvl msg w) as (R & _).
  destruct (log_writes (self_logger o) lvl msg w Hne) as (Herr & Hfile).
  fold lg in Herr, Hfile. fold asct in Herr, Hfile. fold lvl.
  split; [exact R|]. split; [exact Herr|]. split; [exact Hfile|]. split.
  - rewrite Herr. apply extended_iff.
  - intros p. rewrite Hfile. apply extended_iff.
Qed.

Lemma message_reaches_sink_iff_witness :
  let w := snd (Logger.set_params logger "INFO" (Some "a.log") booted) in
  fst (Logger_call Info logger "hello" w) = Ret tt
  /\ file_content (snd (Logger_call Info logger "hello" w)) "a.log"
     <> file_content w "a.log".
Proof.
  intros w.
  destruct (message_reaches_sink_iff Info logger (mkLoggerObj __name__ (Some "a.log"))
              "hello" w) as (R & _ & _ & _ & F).
  - reflexivity.
  - vm_compute. discriminate.
  - split; [exact R|]. apply F.
    exists (file_handler "a.log"). split.
    + vm_compute. right. left. reflexivity.
    + reflexivity.
Defined.

(** C8 as stated fails: after [set_params("INFO", "a.log")] the file sink
    has its own threshold at DEBUG, a debug message reaches that threshold,
    and yet it is not written to the file, because the logger itself is at
    INFO. *)
Lemma debug_reaches_threshold_not_file :
  let w := snd (Logger.set_params logger "INFO" (Some "a.log") booted) in
  let h := file_handler "a.log" in
  In h (handlers (logging.getLogger __name__ w))
  /\ (hlevel h <=? severity_level Debug)%Z = true
  /\ file_content (snd (Logger_call Debug logger "m" w)) "a.log"
     = file_content w "a.log"
  /\ file_content w "a.log" = [].
Proof. vm_compute. repeat split. right. left. reflexivity. Qed.

(** Right after [set_params] with a level at DEBUG or above, the threshold
    given is the one that decides for every sink of the logger: the logger
    and the handlers it had are at that level, and a file handler just
    attached is at DEBUG, which is not above it. *)
Lemma after_set_params_threshold (self : nat) (s : string)
    (f : option string) (o : LoggerObj) (z : Z) (w : World) :
  instances w !! self = Some o ->
  _checkLevel (getattr_logging (upper s) (PyInt INFO)) = Ret z ->
  (DEBUG <= z)%Z ->
  (forall p, f = Some p -> p ∉ denied w) ->
  exists w',
    Logger.set_params self s f w = (Ret tt, w')
    /\ forall h lvl,
         In h (handlers (logging.getLogger (self_logger o) w')) ->
         reaches (logging.getLogger (self_logger o) w') h lvl = (z <=? lvl)%Z.
Proof.
  intros Hi Hv Hz Hf.
  destruct (set_params_spec self s f o z w Hi Hv Hf) as (w' & E & _ & L & _).
  exists w'. split; [exact E|]. intros h lvl Hin.
  rewrite L in *. simpl in Hin.
  unfold reaches, isEnabledFor, getEffectiveLevel. simpl level.
  unfold DEBUG in Hz.
  destruct (z =? 0)%Z eqn:Z0; [apply Z.eqb_eq in Z0; lia|].
  assert (Hh : hlevel h = z \/ hlevel h = DEBUG).
  { destruct f as [p|].
    - destruct (existsb isFileHandler
                  (handlers (logging.getLogger (self_logger o) w))).
      + apply in_map_iff in Hin as (h0 & <- & _). now left.
      + apply in_app_iff in Hin as [Hin|[<-|[]]]; [|now right].
        apply in_map_iff in Hin as (h0 & <- & _). now left.
    - apply List.filter_In in Hin as [Hin _].
      apply in_map_iff in Hin as (h0 & <- & _). now left. }
  unfold DEBUG in Hh.
  destruct Hh as [-> | ->].
  - now rewrite andb_diag.
  - destruct (z <=? lvl)%Z eqn:Zl; simpl; [|reflexivity].
    apply Z.leb_le in Zl. apply Z.leb_le. lia.
Qed.

(** ** C9: a level name that [logging] does not know *)

(** C9, as the code has it.  When the upper-cased name is not an attribute
    of the [logging] module, [getattr] yields its default: the call
    completes (given a path, if any, that can be opened), the logger is at
    INFO and so is every handler it had. *)
Theorem unknown_level_falls_back_to_INFO (self : nat) (o : LoggerObj)
    (s : string) (f : option string) (w : World) :
  instances w !! self = Some o ->
  assoc (upper s) logging_namespace = None ->
  (forall p, f = Some p -> p ∉ denied w) ->
  exists w',
    Logger.set_params self s f w = (Ret tt, w')
    /\ Logger_level self w' = Some INFO
    /\ Logger_sinks self w'
       = Some (let hs := map (with_level INFO)
                           (handlers (logging.getLogger (self_logger o) w)) in
               match f with
               | Some p =>
                   if existsb isFileHandler hs then hs
                   else hs ++ [file_handler p]
               | None => List.filter isConsoleHandler hs
               end).
Proof.
  intros Hi Hs Hf.
  assert (Hv : _checkLevel (getattr_logging (upper s) (PyInt INFO)) = Ret INFO).
  { unfold getattr_logging. now rewrite Hs. }
  destruct (set_params_spec self s f o INFO w Hi Hv Hf)
    as (w' & E & I & L & _).
  exists w'. split; [exact E|].
  assert (Hi' : instances w' !! self = Some (mkLoggerObj (self_logger o) f)).
  { rewrite I. apply list_lookup_insert_eq. eapply lookup_lt_Some. exact Hi. }
  unfold Logger_level, Logger_sinks. rewrite Hi'. simpl. rewrite L. simpl.
  split; [reflexivity|]. now rewrite existsb_with_level.
Qed.

Lemma unknown_level_falls_back_to_INFO_witness :
  exists w',
    Logger.set_params logger "verbose" None booted = (Ret tt, w')
    /\ Logger_level logger w' = Some INFO
    /\ Logger_sinks logger w' = Some [console_handler INFO].
Proof.
  apply (unknown_level_falls_back_to_INFO logger (mkLoggerObj __name__ None)
           "verbose" None booted).
  - reflexivity.
  - reflexivity.
  - intros p H. discriminate H.
Defined.

(** C9 as stated fails: ["basic_format"] is no severity level name, its
    upper-case form names the format string [logging.BASIC_FORMAT], which
    [setLevel] refuses: the call raises [ValueError].  And ["notset"], not
    one of the five severities either, puts the logger at NOTSET, not at
    INFO. *)
Lemma basic_format_raises :
  assoc (upper "basic_format") _nameToLevel = None
  /\ Logger.set_params logger "basic_format" None booted
     = (Raise (Exn "ValueError"
                 "Unknown level: '%(levelname)s:%(name)s:%(message)s'"),
        booted)
  /\ Logger_level logger (snd (Logger.set_params logger "notset" None booted))
     = Some NOTSET.
Proof. repeat split. Qed.

(** ** C10: one console handler per instance *)

Lemma filter_filter_andb {A} (f g : A -> bool) (l : list A) :
  List.filter g (List.filter f l) = List.filter (fun x => (f x && g x)%bool) l.
Proof.
  induction l as [|x l IH]; simpl; [reflexivity|].
  destruct (f x); simpl; [destruct (g x)|]; now rewrite IH.
Qed.

Lemma init_console_handlers (f : option string) (lvl : Z) (w : World) :
  console_handlers (snd (Logger.__init__ f lvl w))
  = console_handlers w ++ [console_handler lvl].
Proof.
  destruct (init_spec f lvl w) as (r & w' & E & _ & _ & L & _).
  rewrite E. simpl. unfold console_handlers. rewrite L. simpl.
  rewrite List.filter_app. f_equal. simpl.
  unfold attached_file. destruct f as [p|]; [|reflexivity].
  destruct (decide (p ∈ denied w)); [reflexivity|].
  now destruct (existsb isFileHandler (handlers (logging.getLogger __name__ w))).
Qed.

Lemma after_constructions_console (args : list (option string * Z))
    (w : World) :
  console_handlers (after_constructions args w)
  = console_handlers w ++ map (fun a => console_handler (snd a)) args.
Proof.
  revert w. induction args as [|a args IH]; intros w; simpl.
  - now rewrite app_nil_r.
  - unfold after_constructions in *. simpl. rewrite IH.
    rewrite init_console_handlers. now rewrite <- app_assoc.
Qed.

Lemma after_constructions_instances (args : list (option string * Z))
    (w : World) :
  instances (after_constructions args w)
  = instances w ++ map (fun a => mkLoggerObj __name__ (fst a)) args.
Proof.
  revert w. induction args as [|a args IH]; intros w; simpl.
  - now rewrite app_nil_r.
  - unfold after_constructions in *. simpl. rewrite IH.
    destruct (init_spec (fst a) (snd a) w) as (r & w' & E & _ & I & _).
    rewrite E. simpl. rewrite I. now rewrite <- app_assoc.
Qed.

Lemma after_constructions_env (args : list (option string * Z))
    (w : World) :
  now (after_constructions args w) = now w
  /\ asctime (after_constructions args w) = asctime w.
Proof.
  revert w. induction args as [|a args IH]; intros w; [split; reflexivity|].
  unfold after_constructions in *. simpl.
  destruct (IH (snd (Logger.__init__ (fst a) (snd a) w))) as [-> ->].
  destruct (init_spec (fst a) (snd a) w) as (r & w' & E & _ & _ & _ & _ & S).
  rewrite E. simpl. destruct S as (_&_&_&_&_&_&N&T). now split.
Qed.

(** C10, as the code has it.  After [k] constructions in a fresh
    interpreter the logger of the module has [k] console handlers, the
    [i]-th with the level given to the [i]-th construction.  A call on any
    of the instances writes the message to standard error once per console
    handler that the record reaches (the logger must be enabled for the
    severity and the severity must reach the threshold of the handler):
    [k] times when it reaches them all. *)
Theorem console_handler_per_instance (args : list (option string * Z))
    (ds : gset string) (nw : nat -> float) (asc : float -> string)
    (s : severity) (self : nat) (msg : string) :
  (self < length args)%nat ->
  let w := after_constructions args (fresh ds nw asc) in
  let lg := logging.getLogger __name__ w in
  let lvl := severity_level s in
  let w' := snd (Logger_call s self msg w) in
  let written :=
    map (fun h => text_of h (asc (nw (ticks w))) lvl msg)
      (List.filter (fun h => reaches lg h lvl) (console_handlers w)) in
  length (console_handlers w) = length args
  /\ console_handlers w = map (fun a => console_handler (snd a)) args
  /\ stderr w' = stderr w ++ written
  /\ (forallb (fun h => reaches lg h lvl) (console_handlers w) = true ->
      length written = length args).
Proof.
  intros Hlt w lg lvl w' written.
  assert (Hc : console_handlers w = map (fun a => console_handler (snd a)) args).
  { unfold w. now rewrite after_constructions_console. }
  assert (Hi : instances w !! self = Some (mkLoggerObj __name__ (nth self (map fst args) None))).
  { unfold w. rewrite after_constructions_instances. simpl.
    clear -Hlt. revert self Hlt.
    induction args as [|a args IH]; intros self Hlt; simpl in *; [lia|].
    destruct self as [|self]; [reflexivity|]. apply IH. lia. }
  assert (Hne : handlers lg <> []).
  { intros Hnil. unfold console_handlers in Hc. fold lg in Hc.
    rewrite Hnil in Hc. destruct args; simpl in *; [lia | discriminate]. }
  assert (Hnow : now w = nw /\ asctime w = asc).
  { unfold w. apply (after_constructions_env args (fresh ds nw asc)). }
  destruct Hnow as [Hn Ha].
  split; [rewrite Hc; apply length_map|]. split; [exact Hc|].
  pose proof (proj1 (log_writes __name__ lvl msg w Hne)) as Herr.
  split.
  - subst w'. rewrite (Logger_call_log s self _ msg w Hi). simpl self_logger.
    fold lvl. rewrite Herr. unfold written, console_handlers.
    rewrite filter_filter_andb. fold lg. fold lvl. now rewrite Hn, Ha.
  - intros Hall. unfold written. rewrite length_map.
    rewrite <- (length_map (fun a => console_handler (snd a)) args), <- Hc.
    f_equal. clear -Hall. induction (console_handlers w) as [|h hs IH];
      simpl in *; [reflexivity|].
    apply andb_true_iff in Hall as [Hh Hr]. rewrite Hh. f_equal. auto.
Qed.

Lemma console_handler_per_instance_witness :
  let args := [(None, INFO); (None, INFO); (None, INFO)] in
  let w := after_constructions args (fresh ∅ clock stamp) in
  length (console_handlers w) = 3%nat
  /\ stderr (snd (Logger_call Warning 1 "disk" w))
     = stderr w
       ++ [stamp (clock 0) +:+ " - WARNING - disk" +:+ LF;
           stamp (clock 0) +:+ " - WARNING - disk" +:+ LF;
           stamp (clock 0) +:+ " - WARNING - disk" +:+ LF].
Proof.
  intros args w.
  destruct (console_handler_per_instance args ∅ clock stamp Warning 1 "disk")
    as (Hk & _ & Herr & _).
  - simpl. lia.
  - split; [exact Hk | exact Herr].
Defined.

(** C10 as stated fails: after the default instance (INFO) and a second
    instance built with [level=DEBUG] there are two console handlers, and a
    [debug] call on the second instance writes its message to standard
    error once, not twice: the handler of the first instance keeps its
    threshold at INFO. *)
Lemma two_instances_one_emission :
  let w := after_constructions [(None, INFO); (None, DEBUG)]
             (fresh ∅ clock stamp) in
  length (instances w) = 2%nat
  /\ console_handlers w = [console_handler INFO; console_handler DEBUG]
  /\ stderr w = []
  /\ stderr (snd (Logger_call Debug 1 "m" w))
     = [stamp (clock 0) +:+ " - DEBUG - m" +:+ LF].
Proof. vm_compute. repeat split. Qed.

(** ** The timer, one method at a time *)

Lemma logger_ref_info_frame (lr : logger_ref) (msg : string) (w : World) :
  (forall i, lr = Facade i -> is_Some (instances w !! i)) ->
  let w' := snd (logger_ref_info lr msg w) in
  fst (logger_ref_info lr msg w) = Ret tt
  /\ timers w' = timers w /\ bars w' = bars w /\ stdout w' = stdout w.
Proof.
  intros Hl. destruct lr as [name|i]; simpl.
  - destruct (log_frame name INFO msg w) as (R & _ & _ & T & B & O & _).
    unfold logging.info. auto.
  - destruct (Hl i eq_refl) as [o Ho].
    unfold Logger.info, bind, Logger.get. rewrite Ho.
    destruct (log_frame (self_logger o) INFO msg w) as (R & _ & _ & T & B & O & _).
    unfold logging.info. auto.
Qed.

(** [__exit__] on a timer that was entered. *)
Lemma exit_spec (self : nat) (exc : option exn) (t : TimerObj) (s : float)
    (w : World) :
  timers w !! self = Some t ->
  t_start t = Some s ->
  bar_open t w ->
  logger_exists t w ->
  let e := now w (ticks w) in
  let msg := Timer.report (t_name t) (PrimFloat.sub e s) in
  exists w',
    Timer.__exit__ self exc w = (Ret false, w')
    /\ timers w' !! self
       = Some (mkTimerObj (t_name t) (t_logger t) (t_total t)
                 (t_progress_bar t) (Some s) (Some e)
                 (Some (PrimFloat.sub e s)))
    /\ match t_progress_bar t with
       | Some b =>
           exists bar, bars w !! b = Some bar
             /\ bars w' = <[b := mkBar (bar_total bar) (bar_desc bar)
                                  (bar_n bar) 1]> (bars w)
       | None => bars w' = bars w
       end
    /\ match t_logger t with
       | None =>
           stdout w' = stdout w ++ [msg +:+ LF]
           /\ stderr w' = stderr w /\ fs w' = fs w
       | Some lr =>
           exists wm, before_report w wm
             /\ logger_ref_info lr msg wm = (Ret tt, w')
       end.
Proof.
  intros Ht Hs Hb Hl e msg.
  assert (Hlen : (self < length (timers w))%nat)
    by (eapply lookup_lt_Some; exact Ht).
  unfold Timer.__exit__, bind, Timer.get, Timer.put, time_time.
  rewrite Ht. simpl. rewrite Hs. simpl. fold e. fold msg.
  set (w1 := set_timers _ (set_timers _ (set_ticks S w))).
  assert (T1 : timers w1 !! self
               = Some (mkTimerObj (t_name t) (t_logger t) (t_total t)
                         (t_progress_bar t) (Some s) (Some e)
                         (Some (PrimFloat.sub e s)))).
  { unfold w1. simpl. apply list_lookup_insert_eq.
    now rewrite length_insert. }
  assert (exists w2,
            match t_progress_bar t with
            | Some b => tqdm_close b
            | None => ret tt
            end w1 = (Ret tt, w2)
            /\ timers w2 = timers w1 /\ before_report w w2
            /\ match t_progress_bar t with
               | Some b =>
                   exists bar, bars w !! b = Some bar
                     /\ bars w2 = <[b := mkBar (bar_total bar) (bar_desc bar)
                                          (bar_n bar) 1]> (bars w)
               | None => bars w2 = bars w
               end) as (w2 & E2 & T2 & BR & B2).
  { destruct (t_progress_bar t) as [b|] eqn:Eb.
    - destruct (Hb b Eb) as (bar & Hbar & Hc).
      assert (Hbar1 : bars w1 !! b = Some bar) by exact Hbar.
      unfold tqdm_close. rewrite Hbar1.
      eexists. split; [reflexivity|]. split; [reflexivity|].
      split; [unfold before_report; simpl; repeat split|].
      exists bar. split; [exact Hbar|]. simpl. now rewrite Hc.
    - exists w1. split; [reflexivity|]. split; [reflexivity|].
      split; [unfold before_report; simpl; repeat split | reflexivity]. }
  rewrite E2.
  destruct (t_logger t) as [lr|] eqn:El.
  - assert (Hlr : forall i, lr = Facade i -> is_Some (instances w2 !! i)).
    { intros i ->. destruct BR as (_ & I & _). rewrite I. now apply Hl. }
    destruct (logger_ref_info_frame lr msg w2 Hlr) as (R & T & B & O).
    destruct (logger_ref_info lr msg w2) as [r w3] eqn:E3. simpl in *.
    subst r. exists w3. split; [reflexivity|].
    split; [now rewrite T, T2|]. split.
    + destruct (t_progress_bar t); [|congruence].
      destruct B2 as (bar & ? & ?). exists bar. split; congruence.
    + exists w2. split; [exact BR | exact E3].
  - unfold print. simpl. eexists. split; [reflexivity|]. simpl.
    split; [now rewrite T2|]. split; [exact B2|].
    destruct BR as (_ & _ & F & Er & O & _). rewrite O, Er, F. repeat split.
Qed.


(** ** C3: the way out of the timed block *)



(** ** C7: the report *)

Lemma append_assoc (a b c : string) : (a +:+ b) +:+ c = a +:+ (b +:+ c).
Proof.
  induction a as [|x a IH]; [reflexivity|].
  rewrite !append_cons. now rewrite IH.
Qed.

(** The text of the report is the report line and a line feed. *)
Lemma report_text (name : string) (elapsed : float) :
  Timer.report name elapsed
  = (name +:+ " took " +:+ format_4_2f elapsed +:+ " seconds.") +:+ LF.
Proof. unfold Timer.report. now rewrite !append_assoc. Qed.

Lemma two_digits_shape (n : Z) :
  (0 <= n < 100)%Z ->
  exists d1 d2,
    two_digits n = String d1 (String d2 "")
    /\ is_digit d1 = true /\ is_digit d2 = true.
Proof.
  intros Hn.
  assert (Hall : forallb
            (fun k => match two_digits (Z.of_nat k) with
                      | String d1 (String d2 EmptyString) =>
                          (is_digit d1 && is_digit d2)%bool
                      | _ => false
                      end) (seq 0 100) = true) by (vm_compute; reflexivity).
  rewrite forallb_forall in Hall.
  specialize (Hall (Z.to_nat n)). rewrite Z2Nat.id in Hall by lia.
  assert (Hin : In (Z.to_nat n) (seq 0 100)) by (apply in_seq; lia).
  specialize (Hall Hin).
  destruct (two_digits n) as [|d1 [|d2 [|]]]; try discriminate.
  apply andb_true_iff in Hall as [H1 H2]. eauto.
Qed.

(** A float that is a number is printed with exactly two decimals. *)
Lemma format_2f_decimals (x : float) :
  is_finite x = true ->
  exists sign int d1 d2,
    format_2f x = sign +:+ int +:+ "." +:+ String d1 (String d2 "")
    /\ is_digit d1 = true /\ is_digit d2 = true.
Proof.
  unfold is_finite, format_2f. destruct (Prim2SF x) as [sg|sg| |sg m e];
    try discriminate; intros _.
  - exists (if sg then "-" else ""), "0", "0"%char, "0"%char.
    destruct sg; repeat split.
  - destruct (two_digits_shape (hundredths m e mod 100)) as (d1 & d2 & E & H1 & H2).
    { apply Z.mod_pos_bound. lia. }
    exists (if sg then "-" else ""), (string_of_Z (hundredths m e / 100)), d1, d2.
    rewrite E. repeat split; assumption.
Qed.

(** C7, as the code has it.  [__exit__] reads the clock, takes
    [elapsed = end - start] and hands over the report line followed by a
    line feed: to [info] of the logger the timer holds at that moment
    (given at construction or by [set_logger]), otherwise to [print], which
    adds its own line feed.  The elapsed time, when it is a number, is
    printed with two decimals. *)
Theorem exit_reports_elapsed (self : nat) (exc : option exn) (t : TimerObj)
    (s : float) (w : World) :
  timers w !! self = Some t ->
  t_start t = Some s ->
  bar_open t w ->
  logger_exists t w ->
  let e := now w (ticks w) in
  let elapsed := PrimFloat.sub e s in
  let line := t_name t +:+ " took " +:+ format_4_2f elapsed +:+ " seconds." in
  exists w',
    Timer.__exit__ self exc w = (Ret false, w')
    /\ timers w' !! self
       = Some (mkTimerObj (t_name t) (t_logger t) (t_total t)
                 (t_progress_bar t) (Some s) (Some e) (Some elapsed))
    /\ match t_logger t with
       | None =>
           stdout w' = stdout w ++ [(line +:+ LF) +:+ LF]
           /\ stderr w' = stderr w /\ fs w' = fs w
       | Some lr =>
           stdout w' = stdout w
           /\ exists wm, before_report w wm
                /\ logger_ref_info lr (line +:+ LF) wm = (Ret tt, w')
       end
    /\ (is_finite elapsed = true ->
        exists pad sign int d1 d2,
          format_4_2f elapsed
          = pad +:+ sign +:+ int +:+ "." +:+ String d1 (String d2 "")
          /\ is_digit d1 = true /\ is_digit d2 = true).
Proof.
  intros Ht Hs Hb Hl e elapsed line.
  destruct (exit_spec self exc t s w Ht Hs Hb Hl) as (w' & E & T & _ & R).
  fold e in T, R. fold elapsed in T, R.
  rewrite report_text in R. fold line in R.
  exists w'. split; [exact E|]. split; [exact T|]. split.
  - destruct (t_logger t) as [lr|] eqn:El; [|exact R].
    destruct R as (wm & BR & Em). split; [|exists wm; auto].
    assert (Hlr : forall i, lr = Facade i -> is_Some (instances wm !! i)).
    { intros i ->. destruct BR as (_ & I & _). rewrite I. now apply Hl. }
    destruct (logger_ref_info_frame lr (line +:+ LF) wm Hlr) as (_ & _ & _ & O).
    rewrite Em in O. simpl in O. rewrite O.
    now destruct BR as (_ & _ & _ & _ & -> & _).
  - intros Hfin.
    destruct (format_2f_decimals elapsed Hfin) as (sg & int & d1 & d2 & F & H1 & H2).
    unfold format_4_2f. rewrite F.
    exists (spaces (4 - String.length (sg +:+ int +:+ "." +:+ String d1 (String d2 "")))),
      sg, int, d1, d2.
    repeat split; assumption.
Qed.

Lemma exit_reports_elapsed_witness :
  let w := snd (Timer.__enter__ 0
                  (snd (Timer.__init__ "job" None
                          (Some (Facade logger)) booted))) in
  exists w',
    Timer.__exit__ 0 None w = (Ret false, w')
    /\ stdout w' = []
    /\ stderr w'
       = [stamp (clock 1) +:+ " - INFO - job took 0.75 seconds." +:+ LF +:+ LF].
Proof.
  intros w.
  destruct (exit_reports_elapsed 0 None
              (mkTimerObj "job" (Some (Facade logger)) None None
                 (Some (clock 0)) None None)
              (clock 0) w) as (w' & E & _ & (O & wm & _ & R) & _).
  - reflexivity.
  - reflexivity.
  - intros b H. discriminate H.
  - intros i H. injection H as <-. eexists. reflexivity.
  - exists w'. split; [exact E|]. split; [exact O|].
    revert E. vm_compute. intros [= <-]. reflexivity.
Defined.

(** C7 as stated fails.  The text reported is not exactly the report line:
    it ends with a line feed of its own, so [print] leaves an empty line
    after it.  And a timer built without a logger does not always print:
    once [set_logger] gave it one, the report goes through that logger and
    nothing reaches standard output. *)
Lemma report_is_not_the_bare_line :
  stdout (snd (plain_timer booted))
  = ["job took 0.75 seconds." +:+ LF +:+ LF]
  /\ stdout (snd (plain_timer booted)) <> ["job took 0.75 seconds." +:+ LF]
  /\ stdout (snd (late_logger_timer booted)) = []
  /\ stderr (snd (late_logger_timer booted))
     = [stamp (clock 1) +:+ " - INFO - job took 0.75 seconds." +:+ LF +:+ LF].
Proof. vm_compute. repeat split. discriminate. Qed.

(** ** C5 and C6: the function-trace decorator *)

Lemma Logger_debug_log (self : nat) (o : LoggerObj) (msg : string)
    (w : World) :
  instances w !! self = Some o ->
  Logger.debug self msg w
  = (Ret tt, snd (logging.log (self_logger o) DEBUG msg w)).
Proof.
  intros Hi. unfold Logger.debug, bind, Logger.get. rewrite Hi.
  unfold logging.debug.
  destruct (log_frame (self_logger o) DEBUG msg w) as (R & _).
  destruct (logging.log (self_logger o) DEBUG msg w) as [r w']. simpl in *.
  now subst r.
Qed.

(** C5.  When the wrapped function raises, the call of the wrapper raises
    the same exception and leaves the world exactly as the function left
    it: nothing is logged after the function, so there is no END message.
    The function ran in the world that the BEGIN message, logged at DEBUG
    through the chosen logger, had produced. *)
Theorem wrapper_raise_skips_END {A B} (func : Fn A B) (li : option nat)
    (args : A) (o : LoggerObj) (e : exn) (w wf : World) :
  instances w !! default logger li = Some o ->
  let w1 := snd (logging.log (self_logger o) DEBUG (BEGIN_of func) w) in
  fn_call func args w1 = (Raise e, wf) ->
  Logger.debug (default logger li) (BEGIN_of func) w = (Ret tt, w1)
  /\ fn_call (decorate (log_function (Some func) li) func) args w
     = (Raise e, wf)
  /\ fn_call (decorate (log_function None li) func) args w = (Raise e, wf).
Proof.
  intros Hi w1 Hf.
  pose proof (Logger_debug_log _ o (BEGIN_of func) w Hi) as Hd. fold w1 in Hd.
  split; [exact Hd|].
  assert (Hw : wrapper func li args w = (Raise e, wf)).
  { unfold wrapper. fold (BEGIN_of func).
    rewrite (bind_Ret _ _ _ _ _ Hd).
    now rewrite (bind_Raise _ _ _ _ _ Hf). }
  split; exact Hw.
Qed.

Lemma wrapper_raise_skips_END_witness :
  Logger.debug logger "__main__.explode BEGIN" booted_DEBUG
  = (Ret tt, snd (logging.log __name__ DEBUG "__main__.explode BEGIN"
                    booted_DEBUG))
  /\ fn_call (decorate (log_function (Some explode) None) explode) tt
       booted_DEBUG
     = (Raise (Exn "ZeroDivisionError" "division by zero"),
        snd (logging.log __name__ DEBUG "__main__.explode BEGIN" booted_DEBUG))
  /\ fn_call (decorate (log_function None None) explode) tt booted_DEBUG
     = (Raise (Exn "ZeroDivisionError" "division by zero"),
        snd (logging.log __name__ DEBUG "__main__.explode BEGIN" booted_DEBUG)).
Proof.
  apply (wrapper_raise_skips_END explode None tt (mkLoggerObj __name__ None)
           (Exn "ZeroDivisionError" "division by zero") booted_DEBUG).
  - reflexivity.
  - reflexivity.
Defined.

(** With the default logger at DEBUG, the console shows the BEGIN line of
    the failed call and no END line. *)
Lemma explode_console :
  stderr (snd (fn_call (decorate (log_function (Some explode) None) explode)
                 tt booted_DEBUG))
  = [stamp (clock 0) +:+ " - DEBUG - __main__.explode BEGIN" +:+ LF].
Proof. reflexivity. Qed.

(** C6.  In both forms of decoration the function obtained keeps the name
    and the module of [func]; a call logs BEGIN at DEBUG through the chosen
    logger (the default one when none is given), calls [func] on the
    arguments it received, and, when [func] returns, logs END at DEBUG
    through the same logger and returns the value of [func]. *)
Theorem wrapper_traces_call {A B} (func : Fn A B) (li : option nat)
    (args : A) (o o' : LoggerObj) (v : B) (w wf : World) :
  instances w !! default logger li = Some o ->
  let w1 := snd (logging.log (self_logger o) DEBUG (BEGIN_of func) w) in
  fn_call func args w1 = (Ret v, wf) ->
  instances wf !! default logger li = Some o' ->
  let w2 := snd (logging.log (self_logger o') DEBUG (END_of func) wf) in
  let bare := decorate (log_function (Some func) li) func in
  let configured := decorate (log_function None li) func in
  fn_name bare = fn_name func /\ fn_module bare = fn_module func
  /\ fn_name configured = fn_name func
  /\ fn_module configured = fn_module func
  /\ Logger.debug (default logger li) (BEGIN_of func) w = (Ret tt, w1)
  /\ Logger.debug (default logger li) (END_of func) wf = (Ret tt, w2)
  /\ fn_call bare args w = (Ret v, w2)
  /\ fn_call configured args w = (Ret v, w2).
Proof.
  intros Hi w1 Hf Hi' w2 bare configured.
  pose proof (Logger_debug_log _ o (BEGIN_of func) w Hi) as Hd. fold w1 in Hd.
  pose proof (Logger_debug_log _ o' (END_of func) wf Hi') as He. fold w2 in He.
  assert (Hw : wrapper func li args w = (Ret v, w2)).
  { unfold wrapper. fold (BEGIN_of func). fold (END_of func).
    rewrite (bind_Ret _ _ _ _ _ Hd).
    rewrite (bind_Ret _ _ _ _ _ Hf).
    now rewrite (bind_Ret _ _ _ _ _ He). }
  repeat split; assumption.
Qed.

Lemma wrapper_traces_call_witness :
  let w1 := snd (logging.log __name__ DEBUG "__main__.add BEGIN" booted_DEBUG) in
  let w2 := snd (logging.log __name__ DEBUG "__main__.add END" w1) in
  fn_call (decorate (log_function (Some add) None) add) (2, 3) booted_DEBUG
  = (Ret 5, w2)
  /\ fn_call (decorate (log_function None (Some logger)) add) (2, 3)
       booted_DEBUG
     = (Ret 5, w2)
  /\ stderr w2
     = [stamp (clock 0) +:+ " - DEBUG - __main__.add BEGIN" +:+ LF;
        stamp (clock 1) +:+ " - DEBUG - __main__.add END" +:+ LF].
Proof.
  intros w1 w2.
  destruct (wrapper_traces_call add None (2, 3) (mkLoggerObj __name__ None)
              (mkLoggerObj __name__ None) 5 booted_DEBUG w1)
    as (_ & _ & _ & _ & _ & _ & Hb & _).
  - reflexivity.
  - reflexivity.
  - reflexivity.
  - destruct (wrapper_traces_call add (Some logger) (2, 3)
                (mkLoggerObj __name__ None) (mkLoggerObj __name__ None) 5
                booted_DEBUG w1) as (_ & _ & _ & _ & _ & _ & _ & Hc).
    + reflexivity.
    + reflexivity.
    + reflexivity.
    + split; [exact Hb|]. split; [exact Hc|]. reflexivity.
Defined.

(** * Further properties *)

(** ** Configuration that fails *)

(** When [setLevel] refuses the value found for the level name,
    [set_params] raises before anything has changed: the level, the
    handlers, the attribute [log_file] and the files are as they were, and
    a file given with the call has not been emptied. *)
Theorem refused_level_changes_nothing (self : nat) (s : string)
    (f : option string) (v : pyval) (e : exn) (w : World) :
  is_Some (instances w !! self) ->
  assoc (upper s) logging_namespace = Some v ->
  _checkLevel v = Raise e ->
  Logger.set_params self s f w = (Raise e, w)
  /\ forall p, file_content (snd (Logger.set_params self s f w)) p
               = file_content w p.
Proof.
  intros [o Hi] Hs Hv.
  assert (E : Logger.set_params self s f w = (Raise e, w)).
  { unfold Logger.set_params, bind, Logger.get, logging.setLevel, bind, lift,
      getattr_logging.
    rewrite Hi, Hs, Hv. reflexivity. }
  split; [exact E|]. intros p. now rewrite E.
Qed.

Lemma refused_level_changes_nothing_witness :
  Logger.set_params logger "_styles" (Some "run.log") booted
  = (Raise (Exn "TypeError" "Level not an integer or a valid string"), booted)
  /\ forall p,
       file_content
         (snd (Logger.set_params logger "_styles" (Some "run.log") booted)) p
       = file_content booted p.
Proof.
  apply (refused_level_changes_nothing logger "_styles" (Some "run.log")
           PyDict (Exn "TypeError" "Level not an integer or a valid string")
           booted).
  - eexists. reflexivity.
  - reflexivity.
  - reflexivity.
Defined.

(** When the level is accepted but the file cannot be opened, [set_params]
    raises the error of [open] with the configuration half done: the
    logger and its handlers are already at the new level and [log_file]
    already names the path, while no handler was attached or removed and no
    file was touched. *)
Theorem unopenable_path_after_levels (self : nat) (s p : string)
    (o : LoggerObj) (z : Z) (w : World) :
  instances w !! self = Some o ->
  _checkLevel (getattr_logging (upper s) (PyInt INFO)) = Ret z ->
  p ∈ denied w ->
  exists w',
    Logger.set_params self s (Some p) w = (Raise (Exn "PermissionError" p), w')
    /\ instances w' !! self = Some (mkLoggerObj (self_logger o) (Some p))
    /\ logging.getLogger (self_logger o) w'
       = mkPyLogger z
           (map (with_level z) (handlers (logging.getLogger (self_logger o) w)))
    /\ fs w' = fs w.
Proof.
  intros Hi Hv Hd.
  destruct (set_params_levels (self_logger o) _ z w Hv)
    as (w2 & E2 & I2 & L2 & O2 & F2 & S2).
  assert (Hi2 : instances w2 !! self = Some o) by now rewrite I2.
  assert (Hd2 : p ∈ denied w2).
  { destruct S2 as (_&_&_&_&_&D&_). now rewrite D. }
  unfold Logger.set_params. unfold bind at 1. unfold Logger.get at 1.
  rewrite Hi. rewrite <- bind_assoc. rewrite (bind_Ret _ _ _ _ _ E2).
  unfold Logger.set_log_file, bind, Logger.get, Logger.put, open_w.
  rewrite Hi2. simpl.
  destruct (decide (p ∈ denied w2)) as [_|]; [|contradiction].
  eexists. split; [reflexivity|]. simpl. split.
  - rewrite I2. apply list_lookup_insert_eq. eapply lookup_lt_Some. exact Hi.
  - split; [exact L2 | exact F2].
Qed.

Lemma unopenable_path_after_levels_witness :
  exists w',
    Logger.set_params logger "error" (Some "/proc/x.log") booted_denied
    = (Raise (Exn "PermissionError" "/proc/x.log"), w')
    /\ instances w' !! logger
       = Some (mkLoggerObj __name__ (Some "/proc/x.log"))
    /\ logging.getLogger __name__ w'
       = mkPyLogger ERROR [console_handler ERROR]
    /\ fs w' = fs booted_denied.
Proof.
  apply (unopenable_path_after_levels logger "error" "/proc/x.log"
           (mkLoggerObj __name__ None) ERROR booted_denied).
  - reflexivity.
  - reflexivity.
  - vm_compute. set_solver.
Defined.

(** A construction that fails on its file has already acted on the shared
    logger: [Logger(log_file=p, level=lvl)] with a path that cannot be
    opened raises, and yet the logger of the module is at [lvl] and has one
    more console handler; its file handlers are as before. *)
Theorem failed_construction_leaves_handler (p : string) (lvl : Z)
    (w : World) :
  p ∈ denied w ->
  let w' := snd (Logger.__init__ (Some p) lvl w) in
  fst (Logger.__init__ (Some p) lvl w) = Raise (Exn "PermissionError" p)
  /\ level (logging.getLogger __name__ w') = lvl
  /\ console_handlers w' = console_handlers w ++ [console_handler lvl]
  /\ file_handlers w' = file_handlers w.
Proof.
  intros Hd w'. subst w'.
  destruct (init_spec (Some p) lvl w) as (r & w' & E & R & _ & L & _).
  rewrite E. simpl. unfold attached_file in L.
  destruct (decide (p ∈ denied w)); [|contradiction].
  subst r. split; [reflexivity|].
  unfold console_handlers, file_handlers. rewrite L. simpl.
  rewrite !List.filter_app. simpl. rewrite !app_nil_r. repeat split.
Qed.

Lemma failed_construction_leaves_handler_witness :
  let w' := snd (Logger.__init__ (Some "/proc/x.log") DEBUG booted_denied) in
  fst (Logger.__init__ (Some "/proc/x.log") DEBUG booted_denied)
  = Raise (Exn "PermissionError" "/proc/x.log")
  /\ level (logging.getLogger __name__ w') = DEBUG
  /\ console_handlers w'
     = console_handlers booted_denied ++ [console_handler DEBUG]
  /\ file_handlers w' = file_handlers booted_denied.
Proof.
  apply (failed_construction_leaves_handler "/proc/x.log" DEBUG booted_denied).
  vm_compute. set_solver.
Defined.

(** A construction sets the level every existing instance logs at: after
    [Logger(log_file, level=lvl)] an instance built before logs at [lvl],
    through the handlers it had, with their thresholds as they were,
    followed by the new ones. *)
Theorem construction_resets_level (A : nat) (oA : LoggerObj)
    (f : option string) (lvl : Z) (w : World) :
  shared w ->
  instances w !! A = Some oA ->
  let w' := snd (Logger.__init__ f lvl w) in
  instances w' !! A = Some oA
  /\ Logger_level A w' = Some lvl
  /\ exists hs, Logger_sinks A w = Some hs
       /\ Logger_sinks A w'
          = Some (hs ++ [console_handler lvl] ++ attached_file f w).
Proof.
  intros Hs HA w'. subst w'.
  pose proof (shared_lookup _ _ _ Hs HA) as EA.
  destruct (init_spec f lvl w) as (r & w' & E & _ & I & L & _).
  rewrite E. simpl.
  assert (HA' : instances w' !! A = Some oA).
  { rewrite I. apply lookup_app_l_Some. exact HA. }
  unfold Logger_level, Logger_sinks. rewrite HA, HA', EA, L. simpl.
  split; [reflexivity|]. split; [reflexivity|]. eexists. split; reflexivity.
Qed.

Lemma construction_resets_level_witness :
  let w' := snd (Logger.__init__ None ERROR booted) in
  instances w' !! logger = Some (mkLoggerObj __name__ None)
  /\ Logger_level logger w' = Some ERROR
  /\ exists hs, Logger_sinks logger booted = Some hs
       /\ Logger_sinks logger w'
          = Some (hs ++ [console_handler ERROR] ++ attached_file None booted).
Proof.
  apply (construction_resets_level logger (mkLoggerObj __name__ None) None
           ERROR booted).
  - vm_compute. repeat constructor.
  - reflexivity.
Defined.

(** ** Level names *)

Lemma upper_ascii_idem (c : ascii) : upper_ascii (upper_ascii c) = upper_ascii c.
Proof. destruct c as [[] [] [] [] [] [] [] []]; reflexivity. Qed.

Lemma upper_idem (s : string) : upper (upper s) = upper s.
Proof.
  induction s as [|c s IH]; simpl; [reflexivity|].
  now rewrite upper_ascii_idem, IH.
Qed.

(** The level name is taken without regard to case: [set_params] does the
    same with a name and with its upper-case form, whatever the name, the
    file and the state. *)
Theorem level_name_case_insensitive (self : nat) (s : string)
    (f : option string) (w : World) :
  Logger.set_params self s f w = Logger.set_params self (upper s) f w.
Proof. unfold Logger.set_params. now rewrite upper_idem. Qed.

(** With the name of one of the five severities, in any case,
    [set_params] puts the logger at that severity, and from then on the
    severity named is the one that decides for every sink of the logger,
    the file sink included: a record is written by a sink exactly when its
    level is at least the level named. *)
Theorem named_level_decides (sev : severity) (self : nat) (s : string)
    (f : option string) (o : LoggerObj) (w : World) :
  instances w !! self = Some o ->
  upper s = severity_name sev ->
  (forall p, f = Some p -> p ∉ denied w) ->
  exists w',
    Logger.set_params self s f w = (Ret tt, w')
    /\ Logger_level self w' = Some (severity_level sev)
    /\ forall h lvl,
         In h (handlers (logging.getLogger (self_logger o) w')) ->
         reaches (logging.getLogger (self_logger o) w') h lvl
         = (severity_level sev <=? lvl)%Z.
Proof.
  intros Hi Hs Hf.
  assert (Hv : _checkLevel (getattr_logging (upper s) (PyInt INFO))
               = Ret (severity_level sev)).
  { rewrite Hs. now destruct sev. }
  assert (Hz : (DEBUG <= severity_level sev)%Z).
  { destruct sev; unfold DEBUG; simpl; unfold DEBUG, INFO, WARNING, ERROR,
      CRITICAL; lia. }
  destruct (after_set_params_threshold self s f o _ w Hi Hv Hz Hf)
    as (w' & E & R).
  exists w'. split; [exact E|]. split; [|exact R].
  destruct (set_params_spec self s f o _ w Hi Hv Hf) as (w2 & E2 & I & L & _).
  rewrite E in E2. injection E2 as <-.
  unfold Logger_level. rewrite I.
  rewrite list_lookup_insert_eq by (eapply lookup_lt_Some; exact Hi).
  simpl. now rewrite L.
Qed.

Lemma named_level_decides_witness :
  exists w',
    Logger.set_params logger "Warning" (Some "run.log") booted = (Ret tt, w')
    /\ Logger_level logger w' = Some WARNING
    /\ forall h lvl,
         In h (handlers (logging.getLogger __name__ w')) ->
         reaches (logging.getLogger __name__ w') h lvl = (WARNING <=? lvl)%Z.
Proof.
  apply (named_level_decides Warning logger "Warning" (Some "run.log")
           (mkLoggerObj __name__ None) booted).
  - reflexivity.
  - reflexivity.
  - intros p _. vm_compute. set_solver.
Defined.

(** ** The file sink in its working range *)

(** What a log call appends to a file, whether or not the logger has
    handlers. *)
Lemma log_file_content (name : string) (lvl : Z) (msg : string) (w : World)
    (p : string) :
  let lg := logging.getLogger name w in
  file_content (snd (logging.log name lvl msg w)) p
  = file_content w p
    ++ map (fun h => text_of h (asctime w (now w (ticks w))) lvl msg)
         (List.filter (fun h => (writes_to p h && reaches lg h lvl)%bool)
            (handlers lg)).
Proof.
  intros lg.
  destruct (handlers lg) as [|h hs] eqn:E.
  - simpl. rewrite app_nil_r. unfold logging.log. fold lg.
    destruct (isEnabledFor lg lvl); [|reflexivity].
    rewrite E. simpl. now destruct (WARNING <=? lvl)%Z.
  - rewrite <- E. apply (log_writes name lvl msg w). fold lg. now rewrite E.
Qed.

Lemma writes_to_file (p : string) (h : Handler) :
  writes_to p h = true -> isFileHandler h = true.
Proof. unfold writes_to, isFileHandler. now destruct (hkind h). Qed.

Lemma filter_writes_to (p : string) (g : Handler -> bool)
    (hs : list Handler) :
  List.filter (fun h => (writes_to p h && g h)%bool) hs
  = List.filter (fun h => (writes_to p h && g h)%bool)
      (List.filter isFileHandler hs).
Proof.
  induction hs as [|h hs IH]; simpl; [reflexivity|].
  destruct (isFileHandler h) eqn:F; simpl.
  - destruct (writes_to p h && g h)%bool; now rewrite IH.
  - destruct (writes_to p h) eqn:W; [|exact IH].
    apply writes_to_file in W. congruence.
Qed.

(** The truncation property in the range where it holds.  When the logger
    has no file handler, or only one and on the very path [p], then
    [set_params(level, p)] leaves exactly one file handler, on [p], with
    [p] empty; a message then logged at a severity that reaches the level
    is the whole content of [p], formatted by that handler. *)
Theorem configured_file_receives (sev : severity) (self : nat) (s p : string)
    (o : LoggerObj) (z : Z) (msg : string) (w : World) :
  instances w !! self = Some o ->
  _checkLevel (getattr_logging (upper s) (PyInt INFO)) = Ret z ->
  (DEBUG <= z <= severity_level sev)%Z ->
  p ∉ denied w ->
  (forall h, In h (handlers (logging.getLogger (self_logger o) w)) ->
     isFileHandler h = true -> hkind h = FileHandler p) ->
  (length (List.filter isFileHandler
             (handlers (logging.getLogger (self_logger o) w))) <= 1)%nat ->
  let w1 := snd (Logger.set_params self s (Some p) w) in
  let w2 := snd (Logger_call sev self msg w1) in
  exists h,
    List.filter isFileHandler (handlers (logging.getLogger (self_logger o) w1))
    = [h]
    /\ hkind h = FileHandler p
    /\ file_content w1 p = []
    /\ file_content w2 p
       = [text_of h (asctime w1 (now w1 (ticks w1))) (severity_level sev) msg].
Proof.
  intros Hi Hv [Hz Hsev] Hp Hon H1 w1 w2.
  assert (Hf : forall q, Some p = Some q -> q ∉ denied w)
    by (intros q [= <-]; exact Hp).
  destruct (after_set_params_threshold self s (Some p) o z w Hi Hv Hz Hf)
    as (w' & E & R).
  destruct (set_params_spec self s (Some p) o z w Hi Hv Hf)
    as (w'' & E' & I & L & _ & F & _).
  rewrite E in E'. injection E' as <-.
  assert (Ew1 : w1 = w') by (unfold w1; now rewrite E).
  subst w2. rewrite Ew1 in *. clear Ew1.
  set (hs := handlers (logging.getLogger (self_logger o) w)) in *.
  set (lg' := logging.getLogger (self_logger o) w') in *.
  assert (Hfile : exists h,
            List.filter isFileHandler (handlers lg') = [h]
            /\ hkind h = FileHandler p).
  { rewrite L. simpl.
    destruct (existsb isFileHandler hs) eqn:Ex.
    - rewrite filter_with_level by reflexivity.
      destruct (List.filter isFileHandler hs) as [|h0 [|h1 r]] eqn:Fh.
      + exfalso. apply existsb_exists in Ex as (h & Hin & Hh).
        assert (In h (List.filter isFileHandler hs))
          by (apply List.filter_In; auto).
        rewrite Fh in H. destruct H.
      + exists (with_level z h0). split; [reflexivity|]. simpl.
        assert (Hin0 : In h0 (List.filter isFileHandler hs))
          by (rewrite Fh; now left).
        apply List.filter_In in Hin0 as [Hin0 Hf0]. now apply Hon.
      + simpl in H1. lia.
    - rewrite List.filter_app, existsb_false_filter
        by (now rewrite existsb_with_level).
      exists (file_handler p). split; reflexivity. }
  destruct Hfile as (h & Fh & Kh). exists h.
  split; [exact Fh|]. split; [exact Kh|].
  assert (C1 : file_content w' p = []).
  { unfold file_content. rewrite F. now rewrite lookup_insert_eq. }
  split; [exact C1|].
  assert (Hi' : instances w' !! self
                = Some (mkLoggerObj (self_logger o) (Some p))).
  { rewrite I. apply list_lookup_insert_eq. eapply lookup_lt_Some. exact Hi. }
  rewrite (Logger_call_log sev self _ msg w' Hi'). simpl self_logger.
  rewrite log_file_content. fold lg'. rewrite C1. simpl.
  rewrite filter_writes_to, Fh. simpl.
  assert (Hin : In h (handlers lg')).
  { assert (Hh : In h (List.filter isFileHandler (handlers lg')))
      by (rewrite Fh; now left).
    now apply List.filter_In in Hh as [Hh _]. }
  rewrite (R h _ Hin).
  unfold writes_to. rewrite Kh.
  rewrite bool_decide_eq_true_2 by reflexivity.
  assert (Hle : (z <=? severity_level sev)%Z = true) by now apply Z.leb_le.
  rewrite Hle. reflexivity.
Qed.

Lemma configured_file_receives_witness :
  let w1 := snd (Logger.set_params logger "debug" (Some "run.log") booted) in
  let w2 := snd (Logger_call Info logger "hello" w1) in
  exists h,
    List.filter isFileHandler (handlers (logging.getLogger __name__ w1)) = [h]
    /\ hkind h = FileHandler "run.log"
    /\ file_content w1 "run.log" = []
    /\ file_content w2 "run.log"
       = [text_of h (asctime w1 (now w1 (ticks w1))) INFO "hello"].
Proof.
  apply (configured_file_receives Info logger "debug" "run.log"
           (mkLoggerObj __name__ None) DEBUG "hello" booted).
  - reflexivity.
  - reflexivity.
  - vm_compute. split; discriminate.
  - vm_compute. set_solver.
  - vm_compute. intros h [<-|[]] H. discriminate H.
  - vm_compute. lia.
Defined.

(** ** Detaching the file sink *)

Lemma filter_console_idem (hs : list Handler) :
  List.filter isConsoleHandler (List.filter isConsoleHandler hs)
  = List.filter isConsoleHandler hs.
Proof.
  induction hs as [|h hs IH]; simpl; [reflexivity|].
  destruct (isConsoleHandler h) eqn:E; simpl; [rewrite E|]; now rewrite IH.
Qed.

(** [clear_log_file] never raises on an instance and never touches a file:
    [log_file] becomes [None], every file handler leaves the logger while
    the console handlers stay as they are, at their thresholds and in their
    order, the level of the logger is kept, and a message logged afterwards
    reaches no file at all. *)
Theorem clear_log_file_detaches (self : nat) (o : LoggerObj) (w : World) :
  instances w !! self = Some o ->
  let lg := logging.getLogger (self_logger o) w in
  let w' := snd (Logger.clear_log_file self w) in
  fst (Logger.clear_log_file self w) = Ret tt
  /\ instances w' !! self = Some (mkLoggerObj (self_logger o) None)
  /\ logging.getLogger (self_logger o) w'
     = mkPyLogger (level lg) (List.filter isConsoleHandler (handlers lg))
  /\ fs w' = fs w
  /\ forall sev msg p,
       file_content (snd (Logger_call sev self msg w')) p = file_content w p.
Proof.
  intros Hi lg w'. subst w'.
  destruct (clear_log_file_spec self o w Hi) as (w' & E & I & L & _ & F & _).
  rewrite E. simpl. fold lg in L.
  assert (Hi' : instances w' !! self = Some (mkLoggerObj (self_logger o) None)).
  { rewrite I. apply list_lookup_insert_eq. eapply lookup_lt_Some. exact Hi. }
  split; [reflexivity|]. split; [exact Hi'|]. split; [exact L|].
  split; [exact F|]. intros sev msg p.
  rewrite (Logger_call_log sev self _ msg w' Hi'). simpl self_logger.
  rewrite log_file_content, L. simpl handlers.
  rewrite filter_writes_to, filter_file_console. simpl.
  rewrite app_nil_r. unfold file_content. now rewrite F.
Qed.

Lemma clear_log_file_detaches_witness :
  let w := snd (Logger.set_params logger "INFO" (Some "run.log") booted) in
  let w' := snd (Logger.clear_log_file logger w) in
  fst (Logger.clear_log_file logger w) = Ret tt
  /\ instances w' !! logger = Some (mkLoggerObj __name__ None)
  /\ logging.getLogger __name__ w' = mkPyLogger INFO [console_handler INFO]
  /\ fs w' = fs w
  /\ forall sev msg p,
       file_content (snd (Logger_call sev logger msg w')) p = file_content w p.
Proof.
  apply (clear_log_file_detaches logger
           (mkLoggerObj __name__ (Some "run.log"))
           (snd (Logger.set_params logger "INFO" (Some "run.log") booted))).
  reflexivity.
Defined.

(** ** What every session keeps *)

(** [set_params] once the level has passed the check: what is left to do
    is the file part, from a world with the levels set. *)
Lemma set_params_continue (self : nat) (s : string) (f : option string)
    (o : LoggerObj) (z : Z) (w : World) :
  instances w !! self = Some o ->
  _checkLevel (getattr_logging (upper s) (PyInt INFO)) = Ret z ->
  exists w2,
    Logger.set_params self s f w
    = match f with
      | Some p => Logger.set_log_file self p
      | None => Logger.clear_log_file self
      end w2
    /\ instances w2 = instances w
    /\ logging.getLogger (self_logger o) w2
       = mkPyLogger z
           (map (with_level z) (handlers (logging.getLogger (self_logger o) w)))
    /\ denied w2 = denied w.
Proof.
  intros Hi Hv.
  destruct (set_params_levels (self_logger o) _ z w Hv)
    as (w2 & E2 & I2 & L2 & O2 & F2 & S2).
  exists w2. split.
  - unfold Logger.set_params. unfold bind at 1. unfold Logger.get at 1.
    rewrite Hi. rewrite <- bind_assoc. now rewrite (bind_Ret _ _ _ _ _ E2).
  - split; [exact I2|]. split; [exact L2|].
    now destruct S2 as (_&_&_&_&_&D&_).
Qed.

Lemma set_params_counts (self : nat) (s : string) (f : option string)
    (w : World) :
  shared w ->
  let w' := snd (Logger.set_params self s f w) in
  length (console_handlers w') = length (console_handlers w)
  /\ length (instances w') = length (instances w).
Proof.
  intros Hs w'. subst w'.
  destruct (instances w !! self) as [o|] eqn:Hi.
  2:{ unfold Logger.set_params, bind, Logger.get. rewrite Hi. now split. }
  pose proof (shared_lookup _ _ _ Hs Hi) as Ho.
  destruct (_checkLevel (getattr_logging (upper s) (PyInt INFO)))
    as [z|e] eqn:Hv.
  2:{ rewrite (set_params_raises self s f o e w Hi Hv). now split. }
  destruct (set_params_continue self s f o z w Hi Hv) as (w2 & E & I2 & L2 & D2).
  rewrite E. clear E.
  assert (Hi2 : instances w2 !! self = Some o) by now rewrite I2.
  rewrite Ho in *. unfold console_handlers.
  assert (Hmap : length (List.filter isConsoleHandler
                           (map (with_level z)
                              (handlers (logging.getLogger __name__ w))))
                 = length (List.filter isConsoleHandler
                             (handlers (logging.getLogger __name__ w)))).
  { rewrite filter_with_level by reflexivity. apply length_map. }
  destruct f as [p|].
  - destruct (decide (p ∈ denied w2)) as [Hd|Hd].
    + unfold Logger.set_log_file, bind, Logger.get, Logger.put, open_w.
      rewrite Hi2. simpl.
      destruct (decide (p ∈ denied w2)); [|contradiction]. simpl.
      change (logging.getLogger __name__ (set_instances _ w2))
        with (logging.getLogger __name__ w2).
      rewrite L2. simpl. rewrite length_insert, I2. now split.
    + destruct (set_log_file_spec self p o w2 Hi2 Hd) as (w' & E & I & L & _).
      rewrite E. simpl. rewrite Ho in L. rewrite L, L2, I. simpl.
      rewrite length_insert, I2. split; [|reflexivity].
      destruct (existsb isFileHandler
                  (map (with_level z)
                     (handlers (logging.getLogger __name__ w))));
        [exact Hmap|].
      rewrite List.filter_app. simpl. rewrite app_nil_r. exact Hmap.
  - destruct (clear_log_file_spec self o w2 Hi2) as (w' & E & I & L & _).
    rewrite E. simpl. rewrite Ho in L. rewrite L, L2, I. simpl.
    rewrite length_insert, I2. split; [|reflexivity].
    rewrite filter_console_idem. exact Hmap.
Qed.

Lemma set_log_file_well_formed (n self : nat) (p : string) (w : World) :
  well_formed n w -> well_formed n (snd (Logger.set_log_file self p w)).
Proof.
  intros (Hs & Hf & Hc & Hn).
  destruct (instances w !! self) as [o|] eqn:Hi.
  2:{ unfold Logger.set_log_file, bind, Logger.get. rewrite Hi.
      repeat split; assumption. }
  pose proof (shared_lookup _ _ _ Hs Hi) as Ho.
  destruct (decide (p ∈ denied w)) as [Hd|Hd].
  - unfold Logger.set_log_file, bind, Logger.get, Logger.put, open_w.
    rewrite Hi. simpl.
    destruct (decide (p ∈ denied w)); [|contradiction]. simpl.
    unfold well_formed, shared, file_handlers, console_handlers in *. simpl.
    change (logging.getLogger __name__ (set_instances _ w))
      with (logging.getLogger __name__ w).
    rewrite length_insert.
    repeat split; try assumption. now apply shared_insert.
  - destruct (set_log_file_spec self p o w Hi Hd) as (w' & E & I & L & _).
    rewrite E. simpl. rewrite Ho in L.
    unfold well_formed, shared, file_handlers, console_handlers in *.
    rewrite L, I. simpl. rewrite length_insert.
    split; [now apply shared_insert|].
    destruct (existsb isFileHandler (handlers (logging.getLogger __name__ w)))
      eqn:Ex.
    + repeat split; assumption.
    + rewrite !List.filter_app, (existsb_false_filter _ Ex). simpl.
      rewrite app_nil_r. repeat split; [lia | assumption..].
Qed.

Lemma clear_log_file_well_formed (n self : nat) (w : World) :
  well_formed n w -> well_formed n (snd (Logger.clear_log_file self w)).
Proof.
  intros (Hs & Hf & Hc & Hn).
  destruct (instances w !! self) as [o|] eqn:Hi.
  2:{ unfold Logger.clear_log_file, bind, Logger.get. rewrite Hi.
      repeat split; assumption. }
  pose proof (shared_lookup _ _ _ Hs Hi) as Ho.
  destruct (clear_log_file_spec self o w Hi) as (w' & E & I & L & _).
  rewrite E. simpl. rewrite Ho in L.
  unfold well_formed, shared, file_handlers, console_handlers in *.
  rewrite L, I. simpl. rewrite length_insert.
  split; [now apply shared_insert|].
  rewrite filter_file_console, filter_console_idem. simpl.
  repeat split; [lia | assumption..].
Qed.

Lemma log_well_formed (n : nat) (name : string) (lvl : Z) (msg : string)
    (w : World) :
  well_formed n w -> well_formed n (snd (logging.log name lvl msg w)).
Proof.
  intros H. destruct (log_frame name lvl msg w) as (_ & L & I & _).
  unfold well_formed, shared, file_handlers, console_handlers,
    logging.getLogger in *.
  now rewrite L, I.
Qed.

Lemma do_call_well_formed (c : call) (n : nat) (w : World) :
  well_formed n w ->
  well_formed (match c with New _ _ => S n | _ => n end) (do_call c w).
Proof.
  intros H. pose proof H as (Hs & Hf & Hc & Hn).
  destruct c as [f lvl|self s f|self p|self|s self msg|self msg]; simpl.
  - split; [now apply init_shared|].
    split; [now apply init_one_file_handler|].
    rewrite init_console_handlers, length_app. simpl.
    destruct (init_spec f lvl w) as (r & w' & E & _ & I & _).
    rewrite E. simpl. rewrite I, length_app. simpl. split; lia.
  - split; [now apply set_params_shared|].
    split; [now apply set_params_one_file_handler|].
    destruct (set_params_counts self s f w Hs) as [-> ->]. now split.
  - now apply set_log_file_well_formed.
  - now apply clear_log_file_well_formed.
  - destruct (instances w !! self) as [o|] eqn:Hi.
    + rewrite (Logger_call_log s self o msg w Hi). now apply log_well_formed.
    + destruct s; simpl;
        unfold Logger.debug, Logger.info, Logger.warning, Logger.error,
          Logger.critical, bind, Logger.get; rewrite Hi; exact H.
  - unfold Logger.processing_log, bind, Logger.get.
    destruct (instances w !! self) as [o|] eqn:Hi; [|exact H].
    now apply log_well_formed.
Qed.

Lemma session_keeps_well_formed (cs : list call) (n : nat) (w : World) :
  well_formed n w -> well_formed (n + constructions cs) (session cs w).
Proof.
  revert n w. induction cs as [|c cs IH]; intros n w H.
  - simpl. now rewrite Nat.add_0_r.
  - unfold session, constructions in *. simpl.
    apply (do_call_well_formed c) in H.
    specialize (IH _ _ H).
    destruct c; simpl in *; rewrite ?Nat.add_succ_r; exact IH.
Qed.

Lemma fresh_well_formed (ds : gset string) (nw : nat -> float)
    (asc : float -> string) :
  well_formed 0 (fresh ds nw asc).
Proof.
  unfold well_formed, shared, file_handlers, console_handlers,
    logging.getLogger, fresh. simpl. rewrite lookup_empty. simpl.
  split; [apply List.Forall_nil|]. split; [lia|]. split; reflexivity.
Qed.


Lemma filter_length_le {A} (f g : A -> bool) (l : list A) :
  (forall x, f x = true -> g x = true) ->
  (length (List.filter f l) <= length (List.filter g l))%nat.
Proof.
  intros H. induction l as [|x l IH]; simpl; [lia|].
  destruct (f x) eqn:Fx.
  - rewrite (H x Fx). simpl. lia.
  - destruct (g x); simpl; lia.
Qed.

(** No message is ever written twice to a file: in the state any session
    has reached, a log call through any instance adds at most one text to
    any file (while the console may receive it once per instance
    built). *)
Theorem file_written_at_most_once (cs : list call) (ds : gset string)
    (nw : nat -> float) (asc : float -> string) (sev : severity)
    (self : nat) (msg : string) (p : string) :
  let w := session cs (fresh ds nw asc) in
  (length (file_content (snd (Logger_call sev self msg w)) p)
   <= length (file_content w p) + 1)%nat.
Proof.
  intros w.
  destruct (session_keeps_well_formed cs 0%nat _ (fresh_well_formed ds nw asc))
    as (Hs & Hf & _). fold w in Hs, Hf.
  destruct (instances w !! self) as [o|] eqn:Hi.
  - rewrite (Logger_call_log sev self o msg w Hi).
    rewrite (shared_lookup _ _ _ Hs Hi).
    rewrite log_file_content, length_app, length_map.
    apply Nat.add_le_mono_l. etransitivity; [|exact Hf].
    unfold file_handlers. apply filter_length_le.
    intros h Hh. apply andb_true_iff in Hh as [Hh _].
    now apply writes_to_file in Hh.
  - assert (E : Logger_call sev self msg w
                = (Raise (Exn "ReferenceError" "Logger"), w)).
    { destruct sev; simpl;
        unfold Logger.debug, Logger.info, Logger.warning, Logger.error,
          Logger.critical, bind, Logger.get; now rewrite Hi. }
    rewrite E. simpl. lia.
Qed.

(** ** Log calls *)

(** A log call through an instance never raises and configures nothing:
    the loggers with their levels and handlers, the instances, the timers,
    the bars and standard output are as before.  When the severity is below
    the effective level of the logger the call changes nothing at all: no
    record is made, the clock is not even read. *)
Theorem log_call_effects (sev : severity) (self : nat) (o : LoggerObj)
    (msg : string) (w : World) :
  instances w !! self = Some o ->
  let w' := snd (Logger_call sev self msg w) in
  fst (Logger_call sev self msg w) = Ret tt
  /\ loggerDict w' = loggerDict w /\ instances w' = instances w
  /\ timers w' = timers w /\ bars w' = bars w /\ stdout w' = stdout w
  /\ ((severity_level sev
       < getEffectiveLevel (logging.getLogger (self_logger o) w))%Z ->
      w' = w).
Proof.
  intros Hi w'. subst w'.
  rewrite (Logger_call_log sev self o msg w Hi).
  destruct (log_frame (self_logger o) (severity_level sev) msg w)
    as (R & L & I & T & B & O & _).
  repeat (split; [assumption|]).
  intros Hlt. unfold logging.log, isEnabledFor.
  destruct (getEffectiveLevel (logging.getLogger (self_logger o) w)
            <=? severity_level sev)%Z eqn:E; [|reflexivity].
  apply Z.leb_le in E. lia.
Qed.

Lemma log_call_effects_witness :
  let w' := snd (Logger_call Debug logger "quiet" booted) in
  fst (Logger_call Debug logger "quiet" booted) = Ret tt
  /\ loggerDict w' = loggerDict booted /\ instances w' = instances booted
  /\ timers w' = timers booted /\ bars w' = bars booted
  /\ stdout w' = stdout booted
  /\ ((severity_level Debug
       < getEffectiveLevel (logging.getLogger __name__ booted))%Z ->
      w' = booted).
Proof.
  apply (log_call_effects Debug logger (mkLoggerObj __name__ None) "quiet"
           booted).
  reflexivity.
Defined.

(** ** The timer outside its normal course *)

(** [update] on a timer that holds no bar, because it has no total or has
    not been entered yet, does nothing at all and does not raise. *)
Theorem update_without_bar (self : nat) (t : TimerObj) (n : Z) (w : World) :
  timers w !! self = Some t ->
  t_progress_bar t = None ->
  Timer.update self n w = (Ret tt, w).
Proof.
  intros Ht Hb. unfold Timer.update, bind, Timer.get. now rewrite Ht, Hb.
Qed.

Lemma update_without_bar_witness :
  Timer.update 0 5 (snd (Timer.__init__ "job" (Some 3) None booted))
  = (Ret tt, snd (Timer.__init__ "job" (Some 3) None booted)).
Proof.
  apply (update_without_bar 0
           (mkTimerObj "job" None (Some 3) None None None None)).
  - reflexivity.
  - reflexivity.
Defined.




(** [__exit__] on a timer that was never entered raises [AttributeError]
    (there is no [start] to subtract): the end time has been recorded, but
    nothing is reported, neither printed nor logged, and no bar is
    closed. *)
Theorem exit_without_enter (self : nat) (exc : option exn) (t : TimerObj)
    (w : World) :
  timers w !! self = Some t ->
  t_start t = None ->
  exists w',
    Timer.__exit__ self exc w = (Raise (Exn "AttributeError" "start"), w')
    /\ timers w' !! self
       = Some (mkTimerObj (t_name t) (t_logger t) (t_total t)
                 (t_progress_bar t) None (Some (now w (ticks w)))
                 (t_elapsed t))
    /\ bars w' = bars w /\ stdout w' = stdout w /\ stderr w' = stderr w
    /\ fs w' = fs w.
Proof.
  intros Ht Hs.
  unfold Timer.__exit__, bind, Timer.get, Timer.put, time_time, raise.
  rewrite Ht. simpl. rewrite Hs. simpl.
  eexists. split; [reflexivity|]. simpl. split.
  - apply list_lookup_insert_eq. eapply lookup_lt_Some. exact Ht.
  - repeat split.
Qed.

Lemma exit_without_enter_witness :
  exists w',
    Timer.__exit__ 0 None (snd (Timer.__init__ "job" (Some 3) None booted))
    = (Raise (Exn "AttributeError" "start"), w')
    /\ timers w' !! 0%nat
       = Some (mkTimerObj "job" None (Some 3) None None (Some (clock 0)) None)
    /\ bars w' = [] /\ stdout w' = [] /\ stderr w' = []
    /\ fs w' = fs (snd (Timer.__init__ "job" (Some 3) None booted)).
Proof.
  apply (exit_without_enter 0 None
           (mkTimerObj "job" None (Some 3) None None None None)
           (snd (Timer.__init__ "job" (Some 3) None booted))).
  - reflexivity.
  - reflexivity.
Defined.

(** [set_logger] called inside the guarded block takes effect at the end
    of that very block: [__exit__] looks at the logger the timer holds
    then, so the report goes through the logger just set and nothing is
    printed, however the timer was built. *)
Theorem set_logger_in_block_redirects (self : nat) (t : TimerObj)
    (lr : logger_ref) (w : World) :
  timers w !! self = Some t ->
  (t_total t = None -> t_progress_bar t = None) ->
  (forall i, lr = Facade i -> is_Some (instances w !! i)) ->
  let s := now w (ticks w) in
  let e := now w (S (ticks w)) in
  let msg := Timer.report (t_name t) (PrimFloat.sub e s) in
  exists wf wm,
    with_Timer self (fun tm => Timer.set_logger tm lr) w = (Ret tt, wf)
    /\ logger_ref_info lr msg wm = (Ret tt, wf)
    /\ stdout wm = stdout w /\ stderr wm = stderr w /\ fs wm = fs w
    /\ loggerDict wm = loggerDict w
    /\ stdout wf = stdout w.
Proof.
  intros Ht Htot Hlr s e msg.
  assert (Hlen : (self < length (timers w))%nat)
    by (eapply lookup_lt_Some; exact Ht).
  set (bar := match t_total t with
              | Some _ => Some (length (bars w))
              | None => t_progress_bar t
              end).
  set (t1 := mkTimerObj (t_name t) (t_logger t) (t_total t) bar (Some s)
               (t_end t) (t_elapsed t)).
  assert (exists w1,
            Timer.__enter__ self w = (Ret self, w1)
            /\ timers w1 !! self = Some t1
            /\ bars w1 = match t_total t with
                         | Some total => bars w ++ [mkBar total (t_name t) 0 0]
                         | None => bars w
                         end
            /\ stdout w1 = stdout w /\ stderr w1 = stderr w /\ fs w1 = fs w
            /\ loggerDict w1 = loggerDict w /\ instances w1 = instances w
            /\ ticks w1 = S (ticks w) /\ now w1 = now w
            /\ asctime w1 = asctime w)
    as (w1 & E1 & T1 & B1 & O1 & R1 & F1 & L1 & I1 & K1 & N1 & A1).
  { unfold Timer.__enter__, bind, Timer.get, Timer.put, time_time, tqdm.
    rewrite Ht. simpl. subst t1 bar.
    destruct (t_total t) as [total|]; simpl.
    - eexists. split; [reflexivity|]. simpl. split.
      + apply list_lookup_insert_eq. now rewrite length_insert.
      + repeat split.
    - eexists. split; [reflexivity|]. simpl. split.
      + now apply list_lookup_insert_eq.
      + repeat split. }
  set (tb := mkTimerObj (t_name t) (Some lr) (t_total t) bar (Some s)
               (t_end t) (t_elapsed t)).
  set (wb := set_timers (fun l => <[self := tb]> l) w1).
  assert (Eb : Timer.set_logger self lr w1 = (Ret tt, wb)).
  { unfold Timer.set_logger, bind, Timer.get, Timer.put. now rewrite T1. }
  assert (Tb : timers wb !! self = Some tb).
  { unfold wb. simpl. apply list_lookup_insert_eq.
    eapply lookup_lt_Some. exact T1. }
  assert (Hopen : bar_open tb wb).
  { intros b Hb. simpl in Hb. unfold bar in Hb.
    change (bars wb) with (bars w1). rewrite B1.
    destruct (t_total t) as [total|] eqn:Et.
    - injection Hb as <-. eexists. split.
      + rewrite lookup_app_r by lia. rewrite Nat.sub_diag. reflexivity.
      + reflexivity.
    - rewrite (Htot eq_refl) in Hb. discriminate Hb. }
  assert (Hex : logger_exists tb wb).
  { intros i Hi. simpl in Hi. injection Hi as ->.
    change (instances wb) with (instances w1). rewrite I1. now apply Hlr. }
  destruct (exit_spec self None tb s wb Tb eq_refl Hopen Hex)
    as (wf & Ef & _ & _ & R).
  simpl in R. destruct R as (wm & BR & Em).
  change (now wb (ticks wb)) with (now w1 (ticks w1)) in Em.
  rewrite K1, N1 in Em. fold e in Em. fold msg in Em.
  exists wf, wm.
  unfold with_Timer, with_stmt.
  rewrite (bind_Ret _ _ _ _ _ E1). rewrite Eb.
  rewrite (bind_Ret _ _ _ _ _ Ef).
  destruct BR as (Lm & Im & Fm & Rm & Om & _).
  change (loggerDict wb) with (loggerDict w1) in Lm.
  change (fs wb) with (fs w1) in Fm.
  change (stderr wb) with (stderr w1) in Rm.
  change (stdout wb) with (stdout w1) in Om.
  change (instances wb) with (instances w1) in Im.
  split; [reflexivity|]. split; [exact Em|].
  split; [congruence|]. split; [congruence|]. split; [congruence|].
  split; [congruence|].
  assert (Hlr' : forall i, lr = Facade i -> is_Some (instances wm !! i)).
  { intros i Hi. rewrite Im, I1. now apply Hlr. }
  destruct (logger_ref_info_frame lr msg wm Hlr') as (_ & _ & _ & O).
  rewrite Em in O. simpl in O. congruence.
Qed.

Lemma set_logger_in_block_redirects_witness :
  let w := snd (Timer.__init__ "job" None None booted) in
  exists wf wm,
    with_Timer 0 (fun tm => Timer.set_logger tm (Facade logger)) w
    = (Ret tt, wf)
    /\ logger_ref_info (Facade logger)
         (Timer.report "job" (PrimFloat.sub (clock 1) (clock 0))) wm
       = (Ret tt, wf)
    /\ stdout wm = stdout w /\ stderr wm = stderr w /\ fs wm = fs w
    /\ loggerDict wm = loggerDict w
    /\ stdout wf = stdout w.
Proof.
  apply (set_logger_in_block_redirects 0
           (mkTimerObj "job" None None None None None None)
           (Facade logger) (snd (Timer.__init__ "job" None None booted))).
  - reflexivity.
  - reflexivity.
  - intros i H. injection H as <-. eexists. reflexivity.
Defined.

(** ** Decorating twice *)

(** A function decorated twice is traced twice under the same name, since
    each decoration keeps the name and the module: a call logs BEGIN through
    the outer logger, then BEGIN through the inner one, runs the function,
    and on a normal return logs END through the inner and then the outer
    logger and gives the value back; an exception of the function leaves
    through both wrappers without any END. *)
Theorem decorated_twice {A B} (func : Fn A B) (li li' : option nat)
    (args : A) (o1 o2 o3 o4 : LoggerObj) (rb : result B) (w wf : World) :
  instances w !! default logger li' = Some o1 ->
  instances w !! default logger li = Some o2 ->
  let inner := decorate (log_function (Some func) li) func in
  let outer := decorate (log_function None li') inner in
  let w1 := snd (logging.log (self_logger o1) DEBUG (BEGIN_of func) w) in
  let w2 := snd (logging.log (self_logger o2) DEBUG (BEGIN_of func) w1) in
  fn_call func args w2 = (rb, wf) ->
  instances wf !! default logger li = Some o3 ->
  instances wf !! default logger li' = Some o4 ->
  let w3 := snd (logging.log (self_logger o3) DEBUG (END_of func) wf) in
  let w4 := snd (logging.log (self_logger o4) DEBUG (END_of func) w3) in
  fn_name outer = fn_name func /\ fn_module outer = fn_module func
  /\ fn_call outer args w
     = match rb with
       | Ret v => (Ret v, w4)
       | Raise e => (Raise e, wf)
       end.
Proof.
  intros H1 H2 inner outer w1 w2 Hf H3 H4 w3 w4.
  split; [reflexivity|]. split; [reflexivity|].
  pose proof (Logger_debug_log _ o1 (BEGIN_of func) w H1) as D1. fold w1 in D1.
  assert (H2' : instances w1 !! default logger li = Some o2).
  { unfold w1.
    destruct (log_frame (self_logger o1) DEBUG (BEGIN_of func) w)
      as (_ & _ & I & _). now rewrite I. }
  pose proof (Logger_debug_log _ o2 (BEGIN_of func) w1 H2') as D2.
  fold w2 in D2.
  simpl. unfold wrapper at 1. simpl.
  change (fn_module func +:+ "." +:+ fn_name func +:+ " BEGIN")
    with (BEGIN_of func).
  change (fn_module func +:+ "." +:+ fn_name func +:+ " END")
    with (END_of func).
  rewrite (bind_Ret _ _ _ _ _ D1).
  assert (Hin : wrapper func li args w1
                = match rb with
                  | Ret v => (Ret v, w3)
                  | Raise e => (Raise e, wf)
                  end).
  { unfold wrapper. fold (BEGIN_of func). fold (END_of func).
    rewrite (bind_Ret _ _ _ _ _ D2).
    destruct rb as [v|e].
    - rewrite (bind_Ret _ _ _ _ _ Hf).
      pose proof (Logger_debug_log _ o3 (END_of func) wf H3) as D3.
      fold w3 in D3. now rewrite (bind_Ret _ _ _ _ _ D3).
    - now rewrite (bind_Raise _ _ _ _ _ Hf). }
  destruct rb as [v|e].
  - rewrite (bind_Ret _ _ _ _ _ Hin).
    assert (H4' : instances w3 !! default logger li' = Some o4).
    { unfold w3.
      destruct (log_frame (self_logger o3) DEBUG (END_of func) wf)
        as (_ & _ & I & _). now rewrite I. }
    pose proof (Logger_debug_log _ o4 (END_of func) w3 H4') as D4.
    fold w4 in D4. now rewrite (bind_Ret _ _ _ _ _ D4).
  - now rewrite (bind_Raise _ _ _ _ _ Hin).
Qed.

Lemma decorated_twice_witness :
  let inner := decorate (log_function (Some add) None) add in
  let outer := decorate (log_function None (Some logger)) inner in
  fn_name outer = "add" /\ fn_module outer = "__main__"
  /\ fst (fn_call outer (2, 3) booted_DEBUG) = Ret 5
  /\ stderr (snd (fn_call outer (2, 3) booted_DEBUG))
     = [stamp (clock 0) +:+ " - DEBUG - __main__.add BEGIN" +:+ LF;
        stamp (clock 1) +:+ " - DEBUG - __main__.add BEGIN" +:+ LF;
        stamp (clock 2) +:+ " - DEBUG - __main__.add END" +:+ LF;
        stamp (clock 3) +:+ " - DEBUG - __main__.add END" +:+ LF].
Proof.
  intros inner outer.
  destruct (decorated_twice add None (Some logger) (2, 3)
              (mkLoggerObj __name__ None) (mkLoggerObj __name__ None)
              (mkLoggerObj __name__ None) (mkLoggerObj __name__ None)
              (Ret 5) booted_DEBUG
              (snd (logging.log __name__ DEBUG (BEGIN_of add)
                      (snd (logging.log __name__ DEBUG (BEGIN_of add)
                              booted_DEBUG)))))
    as (Hn & Hm & Hc).
  - reflexivity.
  - reflexivity.
  - reflexivity.
  - reflexivity.
  - reflexivity.
  - split; [exact Hn|]. split; [exact Hm|].
    fold inner in Hc. fold outer in Hc. rewrite Hc. split; reflexivity.
Defined.

(** ** A logger built with its file *)

Lemma init_fs (p : string) (lvl : Z) (w : World) :
  p ∉ denied w ->
  fs (snd (Logger.__init__ (Some p) lvl w)) = <[p := []]> (fs w).
Proof.
  intros Hd.
  set (w0 := set_instances (fun l => l ++ [mkLoggerObj __name__ (Some p)]) w).
  set (w1 := set_loggerDict
               (fun d => <[__name__ := mkPyLogger lvl
                                         (handlers (logging.getLogger __name__ w))]> d)
               w0).
  assert (E1 : logging.setLevel __name__ (PyInt lvl) w0 = (Ret tt, w1))
    by reflexivity.
  destruct (logging.addHandler __name__ (console_handler lvl) w1)
    as [r2 w2] eqn:E2.
  assert (R2 : r2 = Ret tt /\ fs w2 = fs w /\ denied w2 = denied w
               /\ instances w2 = instances w0).
  { unfold logging.addHandler, logging.update in E2.
    injection E2 as <- <-. repeat split. }
  destruct R2 as (-> & F2 & D2 & I2).
  assert (Hi2 : instances w2 !! length (instances w)
                = Some (mkLoggerObj __name__ (Some p))).
  { rewrite I2. unfold w0. simpl. rewrite lookup_app_r by lia.
    now rewrite Nat.sub_diag. }
  assert (Hd2 : p ∉ denied w2) by now rewrite D2.
  destruct (set_log_file_spec _ p _ w2 Hi2 Hd2) as (w' & E & _ & _ & _ & F & _).
  unfold Logger.__init__.
  erewrite bind_Ret by reflexivity. fold w0.
  rewrite (bind_Ret _ _ _ _ _ E1).
  fold (console_handler lvl). rewrite (bind_Ret _ _ _ _ _ E2).
  rewrite (bind_Ret _ _ _ _ _ E). simpl. now rewrite F, F2.
Qed.

(** [Logger(log_file=p, level=lvl)] in an interpreter whose module logger
    has no file handler yet, with a path that can be opened: the call
    returns the new instance, [p] is created empty with the one file
    handler on it, and a message then logged through the new instance at a
    severity that reaches [lvl] is the whole content of [p]. *)
Theorem constructed_with_file_receives (sev : severity) (p : string)
    (lvl : Z) (msg : string) (w : World) :
  p ∉ denied w ->
  file_handlers w = [] ->
  lvl <> 0%Z ->
  (lvl <= severity_level sev)%Z ->
  let self := length (instances w) in
  let w1 := snd (Logger.__init__ (Some p) lvl w) in
  let w2 := snd (Logger_call sev self msg w1) in
  fst (Logger.__init__ (Some p) lvl w) = Ret self
  /\ instances w1 !! self = Some (mkLoggerObj __name__ (Some p))
  /\ file_handlers w1 = [file_handler p]
  /\ file_content w1 p = []
  /\ file_content w2 p
     = [text_of (file_handler p) (asctime w1 (now w1 (ticks w1)))
          (severity_level sev) msg].
Proof.
  intros Hd Hnone Hnz Hle self w1 w2.
  pose proof (init_fs p lvl w Hd) as F. fold w1 in F.
  destruct (init_spec (Some p) lvl w) as (r & w' & E & R & I & L & _).
  assert (Ew : w1 = w') by (unfold w1; now rewrite E).
  subst w2. rewrite E. simpl fst. rewrite Ew in *. clear Ew w1.
  unfold attached_file in L.
  destruct (decide (p ∈ denied w)); [contradiction|].
  assert (Ex : existsb isFileHandler (handlers (logging.getLogger __name__ w))
               = false).
  { unfold file_handlers in Hnone.
    destruct (existsb isFileHandler _) eqn:Ex; [|reflexivity].
    apply existsb_exists in Ex as (h & Hin & Hh).
    assert (Hf : In h (List.filter isFileHandler
                         (handlers (logging.getLogger __name__ w))))
      by (apply List.filter_In; auto).
    rewrite Hnone in Hf. destruct Hf. }
  rewrite Ex in L.
  assert (Hi : instances w' !! self = Some (mkLoggerObj __name__ (Some p))).
  { rewrite I. rewrite lookup_app_r by (unfold self; lia).
    unfold self. now rewrite Nat.sub_diag. }
  assert (Hfh : file_handlers w' = [file_handler p]).
  { unfold file_handlers in *. rewrite L. simpl.
    rewrite List.filter_app, Hnone. reflexivity. }
  assert (C1 : file_content w' p = []).
  { unfold file_content. rewrite F. now rewrite lookup_insert_eq. }
  split; [exact R|]. split; [exact Hi|]. split; [exact Hfh|].
  split; [exact C1|].
  rewrite (Logger_call_log sev self _ msg w' Hi). simpl self_logger.
  rewrite log_file_content, C1. simpl.
  rewrite filter_writes_to. fold (file_handlers w'). rewrite Hfh. simpl.
  unfold writes_to, reaches, isEnabledFor, getEffectiveLevel. simpl.
  rewrite bool_decide_eq_true_2 by reflexivity. rewrite L. simpl.
  destruct (lvl =? 0)%Z eqn:Z0; [apply Z.eqb_eq in Z0; contradiction|].
  assert (H1 : (lvl <=? severity_level sev)%Z = true) by now apply Z.leb_le.
  assert (H2 : (DEBUG <=? severity_level sev)%Z = true) by now destruct sev.
  rewrite H1, H2. reflexivity.
Qed.

Lemma constructed_with_file_receives_witness :
  let w1 := snd (Logger.__init__ (Some "run.log") WARNING booted) in
  let w2 := snd (Logger_call Error 1 "disk full" w1) in
  fst (Logger.__init__ (Some "run.log") WARNING booted) = Ret 1%nat
  /\ instances w1 !! 1%nat = Some (mkLoggerObj __name__ (Some "run.log"))
  /\ file_handlers w1 = [file_handler "run.log"]
  /\ file_content w1 "run.log" = []
  /\ file_content w2 "run.log"
     = [text_of (file_handler "run.log") (asctime w1 (now w1 (ticks w1)))
          ERROR "disk full"].
Proof.
  apply (constructed_with_file_receives Error "run.log" WARNING "disk full"
           booted).
  - vm_compute. set_solver.
  - reflexivity.
  - discriminate.
  - vm_compute. discriminate.
Defined.
